(** * Stock delivery analysis tool: the analysis core, embedded and verified

    The development follows [src/utils.py] (signal detection, volume
    analysis, streak detection, price correlation) and the two loaders of
    [src/stock_delivery_analysis_tool.py].

    pandas columns are lists aligned by row position.  A float64 cell is a
    value of [float64] below: an exact rational, one of the two infinities,
    or NaN.  Rounding is not modelled; the special values and the way they
    propagate through comparison and arithmetic are. *)

From Stdlib Require Import Ascii String QArith Qreduction.
From Stdlib Require Qcanon.
From stdpp Require Import gmap strings list fin_maps sorting.

Local Open Scope Z_scope.

(** ** float64 cells *)

Module F64.

Inductive float64 : Type :=
| Fin (q : Q)
| PInf
| NInf
| NaN.

Definition isna (x : float64) : bool :=
  match x with NaN => true | _ => false end.

Definition notna (x : float64) : bool := negb (isna x).

Definition of_Z (z : Z) : float64 := Fin (inject_Z z).
Definition of_nat (n : nat) : float64 := of_Z (Z.of_nat n).

(** Sign of a finite value; zero is the positive zero that integer data
    converts to. *)
Definition Qsgn (q : Q) : comparison := Qcompare q 0.

Definition Qgtb (a b : Q) : bool :=
  match Qcompare a b with Gt => true | _ => false end.

(** [x > y]; every comparison with NaN is false. *)
Definition gt (x y : float64) : bool :=
  match x, y with
  | NaN, _ | _, NaN => false
  | Fin a, Fin b => Qgtb a b
  | PInf, PInf => false
  | PInf, _ => true
  | _, PInf => false
  | NInf, _ => false
  | Fin _, NInf => true
  end.

Definition add (x y : float64) : float64 :=
  match x, y with
  | NaN, _ | _, NaN => NaN
  | Fin a, Fin b => Fin (Qred (a + b))
  | PInf, NInf | NInf, PInf => NaN
  | PInf, _ | _, PInf => PInf
  | NInf, _ | _, NInf => NInf
  end.

Definition sub (x y : float64) : float64 :=
  match x, y with
  | NaN, _ | _, NaN => NaN
  | Fin a, Fin b => Fin (Qred (a - b))
  | PInf, PInf | NInf, NInf => NaN
  | PInf, _ | _, NInf => PInf
  | NInf, _ | _, PInf => NInf
  end.

Definition signed_inf (s : comparison) : float64 :=
  match s with Gt => PInf | Lt => NInf | Eq => NaN end.

Definition flip (s : comparison) : comparison := CompOpp s.

Definition mul (x y : float64) : float64 :=
  match x, y with
  | NaN, _ | _, NaN => NaN
  | Fin a, Fin b => Fin (Qred (a * b))
  | PInf, Fin b | Fin b, PInf => signed_inf (Qsgn b)
  | NInf, Fin b | Fin b, NInf => signed_inf (flip (Qsgn b))
  | PInf, PInf | NInf, NInf => PInf
  | PInf, NInf | NInf, PInf => NInf
  end.

(** True division.  A finite value over zero is an infinity of the sign of
    the numerator, zero over zero is NaN: pandas does not raise. *)
Definition div (x y : float64) : float64 :=
  match x, y with
  | NaN, _ | _, NaN => NaN
  | Fin a, Fin b =>
      match Qsgn b with
      | Eq => signed_inf (Qsgn a)
      | _ => Fin (Qred (a / b))
      end
  | Fin _, (PInf | NInf) => Fin 0
  | PInf, Fin b => match Qsgn b with Lt => NInf | _ => PInf end
  | NInf, Fin b => match Qsgn b with Lt => PInf | _ => NInf end
  | (PInf | NInf), (PInf | NInf) => NaN
  end.

(** [Series.sum(skipna=True)] and [Series.mean()]: NaN cells are left out;
    the mean of no observation is NaN. *)
Definition dropna (l : list float64) : list float64 := filter (λ x, notna x = true) l.

Definition sum (l : list float64) : float64 := foldr add (Fin 0) l.

Definition mean (l : list float64) : float64 :=
  let obs := dropna l in
  match obs with
  | [] => NaN
  | _ => div (sum obs) (of_nat (length obs))
  end.

(** [x <= y]; false as soon as one side is NaN. *)
Definition le (x y : float64) : bool :=
  match x, y with
  | NaN, _ | _, NaN => false
  | _, _ => negb (gt x y)
  end.

(** The mean of a boolean column: True counts 1, False counts 0. *)
Definition of_bool (b : bool) : float64 := if b then Fin 1 else Fin 0.
Definition mean_bool (l : list bool) : float64 := mean (of_bool <$> l).

End F64.

Import F64.

#[global] Instance float64_inhabited : Inhabited float64 := populate NaN.

(** ** The historical frame

    One list per column, aligned by row position.  The two input columns
    every analysis reads are always there; the optional input columns and
    the columns an analysis adds are [None] until present.  The columns one
    analysis adds come and go together, so they are kept in one record.
    Dates are day numbers, so [pd.Timedelta(days=90)] is [90].  Quantities
    are integer cells and close prices are defined numbers, as the exchange
    reports have them; the delivery percentage is a float64 cell and may be
    NaN. *)

Record VolumeColumns : Type := mkVolume {
  Volume_3M_Avg : list float64;
  Volume_Ratio : list float64;
  Delivery_to_Traded : list float64;
  Avg_Volume : list float64;
  Volume_Multiple : list float64
}.

Record PatternColumns : Type := mkPattern {
  High_Delivery : list bool;
  Consecutive_Days : list nat;
  Delivery_Change : list float64;
  Increasing_Delivery : list bool;
  Consecutive_Increases : list nat
}.

Record PriceColumns : Type := mkPrice {
  Price_Change_5D : list float64;
  High_Delivery_Days : list bool
}.

Record DataFrame : Type := mkDF {
  Date : list Z;
  Dly_Qt_to_Traded_Qty : list float64;          (* '% Dly Qt to Traded Qty' *)
  Total_Traded_Quantity : option (list Z);
  Deliverable_Qty : option (list Z);
  Close : option (list Q);
  volume_columns : option VolumeColumns;
  pattern_columns : option PatternColumns;
  price_columns : option PriceColumns
}.

(** A frame as the loader hands it over: no derived column. *)
Definition base_frame (dates : list Z) (dly : list float64)
    (traded deliverable : option (list Z)) (close : option (list Q)) : DataFrame :=
  mkDF dates dly traded deliverable close None None None.

(** ** Column operations of pandas used by the analyses *)

(** [col > threshold], elementwise. *)
Definition col_gt (col : list float64) (threshold : float64) : list bool :=
  (λ x, gt x threshold) <$> col.

(** [s.shift(periods)]: every cell moves [periods] rows down, the first
    rows have no predecessor. *)
Definition shift {A : Type} (periods : nat) (s : list A) : list (option A) :=
  take (length s) (replicate periods None ++ (Some <$> s)).

(** [s != s.shift()] on a boolean column: the missing predecessor of the
    first row differs from both booleans. *)
Definition changed (prev : option bool) (b : bool) : bool :=
  match prev with Some b' => negb (Bool.eqb b b') | None => true end.

Definition ne_shift (s : list bool) : list bool :=
  zip_with (λ b p, changed p b) s (shift 1 s).

(** [s.cumsum()] on a boolean column. *)
Fixpoint cumsum_from (acc : nat) (s : list bool) : list nat :=
  match s with
  | [] => []
  | b :: s' =>
      let acc' := (acc + (if b then 1 else 0))%nat in
      acc' :: cumsum_from acc' s'
  end.

Definition cumsum (s : list bool) : list nat := cumsum_from 0 s.

(** [s.groupby(keys).cumcount()]: each row is numbered by how many earlier
    rows carry its key. *)
Fixpoint cumcount_from (seen keys : list nat) : list nat :=
  match keys with
  | [] => []
  | k :: keys' =>
      length (filter (λ k', k' = k) seen) :: cumcount_from (k :: seen) keys'
  end.

Definition cumcount (keys : list nat) : list nat := cumcount_from [] keys.

(** [s.diff()]: difference to the previous row, NaN on the first row. *)
Definition diff (s : list float64) : list float64 :=
  zip_with (λ x p, match p with Some y => sub x y | None => NaN end) s (shift 1 s).

(** [s.pct_change(periods)]: [s / s.shift(periods) - 1]. *)
Definition pct_change (periods : nat) (s : list Q) : list float64 :=
  zip_with (λ x p, match p with
                   | Some y => sub (div (Fin x) (Fin y)) (Fin 1)
                   | None => NaN
                   end) s (shift periods s).

(** [col[mask]]: the cells of the rows where the mask is True. *)
Definition loc_mask {A : Type} (mask : list bool) (col : list A) : list A :=
  snd <$> filter (λ p, p.1 = true) (zip mask col).

(** [s.rolling(window, min_periods).mean()]: row [i] sees the rows
    [i - window + 1 .. i] that exist; with fewer than [min_periods]
    observations the cell is NaN. *)
Definition rolling_window {A : Type} (window i : nat) (s : list A) : list A :=
  drop (S i - window) (take (S i) s).

Definition rolling_mean (window min_periods : nat) (s : list float64) : list float64 :=
  imap (λ i _, let w := rolling_window window i s in
               if decide (min_periods ≤ length (dropna w))%nat then mean w else NaN) s.

(** [a / b] on two columns and on a column and a scalar. *)
Definition col_div (a b : list float64) : list float64 := zip_with div a b.
Definition col_mul_scalar (a : list float64) (k : float64) : list float64 :=
  (λ x, mul x k) <$> a.

(** ** Volume Analyzer: [add_volume_analysis] *)

Definition add_volume_analysis (df : DataFrame) : DataFrame :=
  match Total_Traded_Quantity df, Deliverable_Qty df with
  | Some traded, Some deliverable =>
      let tq := of_Z <$> traded in
      let dq := of_Z <$> deliverable in
      let vol3m := rolling_mean 90 1 tq in
      let ratio := col_div tq vol3m in
      let d2t := col_mul_scalar (col_div dq tq) (Fin 100) in
      let avg := replicate (length (Date df)) (mean tq) in
      let multiple := col_div tq avg in
      mkDF (Date df) (Dly_Qt_to_Traded_Qty df)
           (Total_Traded_Quantity df) (Deliverable_Qty df) (Close df)
           (Some (mkVolume vol3m ratio d2t avg multiple))
           (pattern_columns df) (price_columns df)
  | _, _ => df
  end.

(** ** Pattern Detector: [detect_delivery_patterns] *)

(** The streak counter both patterns use:
    [flag.groupby((flag != flag.shift()).cumsum()).cumcount() + 1]. *)
Definition streaks (flag : list bool) : list nat :=
  S <$> cumcount (cumsum (ne_shift flag)).

Definition detect_delivery_patterns (df : DataFrame) (threshold : float64) : DataFrame :=
  let high := col_gt (Dly_Qt_to_Traded_Qty df) threshold in
  let change := diff (Dly_Qt_to_Traded_Qty df) in
  let increasing := col_gt change (Fin 0) in
  mkDF (Date df) (Dly_Qt_to_Traded_Qty df)
       (Total_Traded_Quantity df) (Deliverable_Qty df) (Close df)
       (volume_columns df)
       (Some (mkPattern high (streaks high) change increasing (streaks increasing)))
       (price_columns df).

(** ** Signal Detector: [analyze_delivery_signals] *)

(** What [iterrows] yields, restricted to the cells the detector reads. *)
Record Row : Type := mkRow {
  row_Date : Z;
  row_Dly : float64;
  row_Volume : option (float64 * float64)   (* Volume_Multiple, Delivery_to_Traded *)
}.

Definition iterrows (df : DataFrame) : list Row :=
  imap (λ i '(d, x),
          mkRow d x (v ← volume_columns df;
                     Some (Volume_Multiple v !!! i, Delivery_to_Traded v !!! i)))
       (zip (Date df) (Dly_Qt_to_Traded_Qty df)).

(** [df.sort_values('Date')], rows with equal dates keeping their order. *)
Fixpoint insert_by_date (r : Row) (l : list Row) : list Row :=
  match l with
  | [] => [r]
  | r' :: l' =>
      if decide (row_Date r ≤ row_Date r') then r :: l
      else r' :: insert_by_date r l'
  end.

Definition sort_values (rows : list Row) : list Row := foldr insert_by_date [] rows.

(** [s.between(lo, hi)], both ends included. *)
Definition between (lo hi d : Z) : bool := (lo <=? d) && (d <=? hi).

Definition three_months : Z := 90.

Record Signal : Type := mkSignal {
  signal_Date : Z;
  signal_Delivery : float64;                    (* 'Delivery %' *)
  signal_Previous_Avg : float64;                (* 'Previous Avg' *)
  signal_Volume : option (float64 * float64)    (* Volume_Multiple, Delivery_to_Traded *)
}.

(** One turn of the loop over the sorted rows. *)
Definition signal_for (df : list Row) (threshold : float64) (row : Row) : option Signal :=
  if gt (row_Dly row) threshold then
    let lookback_date := row_Date row - three_months in
    let previous_crosses :=
      filter (λ r, between lookback_date (row_Date row) (row_Date r)
                   && gt (row_Dly r) threshold = true) df in
    if decide (length previous_crosses = 1%nat) then
      Some (mkSignal (row_Date row) (row_Dly row)
              (mean (row_Dly <$>
                 filter (λ r, between lookback_date (row_Date row) (row_Date r) = true) df))
              (row_Volume row))
    else None
  else None.

Definition analyze_delivery_signals (df : DataFrame) (threshold : float64) : list Signal :=
  let rows := sort_values (iterrows df) in
  omap (signal_for rows threshold) rows.

(** ** Price Correlation Analyzer: [analyze_price_correlation] *)

Record PriceAnalysis : Type := mkPriceAnalysis {
  correlation : float64;
  success_rate : float64
}.

(** The frame with its two new columns, and the returned dictionary
    ([None] when there is no close price). *)
Definition analyze_price_correlation (df : DataFrame) (threshold : float64)
    : DataFrame * option PriceAnalysis :=
  match Close df with
  | Some close =>
      let change := pct_change 5 close in
      let high := col_gt (Dly_Qt_to_Traded_Qty df) threshold in
      let selected := loc_mask high change in
      (mkDF (Date df) (Dly_Qt_to_Traded_Qty df)
            (Total_Traded_Quantity df) (Deliverable_Qty df) (Close df)
            (volume_columns df) (pattern_columns df)
            (Some (mkPrice change high)),
       Some (mkPriceAnalysis (mean selected) (mean_bool (col_gt selected (Fin 0)))))
  | None => (df, None)
  end.

(** ** Text helpers of the loaders *)



(** The whitespace [str.strip()] removes, over ASCII. *)
Definition is_space (c : ascii) : bool :=
  let n := N_of_ascii c in
  ((9 <=? n) && (n <=? 13))%N || (n =? 32)%N || ((28 <=? n) && (n <=? 31))%N.

Fixpoint lstrip (s : string) : string :=
  match s with
  | String c s' => if is_space c then lstrip s' else s
  | EmptyString => EmptyString
  end.

Fixpoint rstrip (s : string) : string :=
  match s with
  | String c s' =>
      match rstrip s' with
      | EmptyString => if is_space c then EmptyString else String c EmptyString
      | t => String c t
      end
  | EmptyString => EmptyString
  end.

Definition strip (s : string) : string := rstrip (lstrip s).

(** [s.replace(',', '')]. *)
Fixpoint remove_commas (s : string) : string :=
  match s with
  | String c s' =>
      if Ascii.eqb c "," then remove_commas s' else String c (remove_commas s')
  | EmptyString => EmptyString
  end.

(** ** Regular expressions, as far as [unwanted_series] needs them *)

Inductive regex : Type :=
| Void
| Eps
| Chr (c : ascii)
| Range (lo hi : ascii)
| Alt (r1 r2 : regex)
| Cat (r1 r2 : regex).

Fixpoint nullable (r : regex) : bool :=
  match r with
  | Void | Chr _ | Range _ _ => false
  | Eps => true
  | Alt r1 r2 => nullable r1 || nullable r2
  | Cat r1 r2 => nullable r1 && nullable r2
  end.

Definition in_range (lo hi c : ascii) : bool :=
  ((N_of_ascii lo <=? N_of_ascii c) && (N_of_ascii c <=? N_of_ascii hi))%N.

Fixpoint deriv (c : ascii) (r : regex) : regex :=
  match r with
  | Void | Eps => Void
  | Chr c' => if Ascii.eqb c c' then Eps else Void
  | Range lo hi => if in_range lo hi c then Eps else Void
  | Alt r1 r2 => Alt (deriv c r1) (deriv c r2)
  | Cat r1 r2 =>
      if nullable r1 then Alt (Cat (deriv c r1) r2) (deriv c r2)
      else Cat (deriv c r1) r2
  end.

(** The whole text is a word of [r]. *)
Fixpoint fullmatch (r : regex) (s : string) : bool :=
  match s with
  | EmptyString => nullable r
  | String c s' => fullmatch (deriv c r) s'
  end.

Definition newline : ascii := "010"%char.

(** The text without its last character, when that is a newline. *)
Fixpoint chop_newline (s : string) : option string :=
  match s with
  | EmptyString => None
  | String c EmptyString => if Ascii.eqb c newline then Some EmptyString else None
  | String c s' => String c <$> chop_newline s'
  end.

(** [re.match('^(r)$', s)]: [$] stands at the end of the text or right
    before a newline that ends it. *)
Definition str_match_anchored (r : regex) (s : string) : bool :=
  fullmatch r s ||
  match chop_newline s with Some s' => fullmatch r s' | None => false end.

Definition lit2 (a b : ascii) : regex := Cat (Chr a) (Chr b).
Definition digit_or_upper : regex := Alt (Range "0" "9") (Range "A" "Z").

(** [r'^(GB|GS|BE|BO|BL|W[0-9A-Z]|K[0-9A-Z]|MF|ME|TB|SG)$'], the part
    between the anchors. *)
Definition unwanted_series : regex :=
  Alt (lit2 "G" "B") (Alt (lit2 "G" "S") (Alt (lit2 "B" "E") (Alt (lit2 "B" "O")
  (Alt (lit2 "B" "L") (Alt (Cat (Chr "W") digit_or_upper)
  (Alt (Cat (Chr "K") digit_or_upper) (Alt (lit2 "M" "F") (Alt (lit2 "M" "E")
  (Alt (lit2 "T" "B") (lit2 "S" "G")))))))))).

(** The exclusion set of the specification, code by code: the nine
    two-letter codes, and W or K followed by a digit or a capital. *)
Definition digits_and_capitals : list ascii :=
  list_ascii_of_string "0123456789ABCDEFGHIJKLMNOPQRSTUVWXYZ".

Definition exclusion_set : list string :=
  ["GB"; "GS"; "BE"; "BO"; "BL"; "MF"; "ME"; "TB"; "SG"]
  ++ ((λ c, String "W" (String c EmptyString)) <$> digits_and_capitals)
  ++ ((λ c, String "K" (String c EmptyString)) <$> digits_and_capitals).

(** ** Daily Snapshot Filter: [load_daily_data] *)

(** A row of the snapshot as [read_csv] delivers it; the delivery cell is
    still text ([""] for an empty cell). *)
Record SnapshotRow : Type := mkSnapshotRow {
  SERIES : string;
  SYMBOL : string;
  DELIV_PER : string;
  DATE1 : string
}.

Record NumericRow : Type := mkNumericRow {
  num_SERIES : string;
  num_SYMBOL : string;
  num_DELIV_PER : float64;
  num_DATE1 : string
}.

Section Daily.

(** The number a cell text denotes; [None] for text that is no number.
    This is the parser inside [pd.to_numeric]. *)
Variable number_of_text : string → option float64.

(** [.replace(['-', ''], pd.NA)]. *)
Definition replace_placeholder (s : string) : option string :=
  if decide (s = "-" ∨ s = "") then None else Some s.

(** [pd.to_numeric(..., errors='coerce')]. *)
Definition to_numeric (cell : option string) : float64 :=
  match cell with
  | Some s => default NaN (number_of_text s)
  | None => NaN
  end.

Definition clean_row (r : SnapshotRow) : NumericRow :=
  mkNumericRow (SERIES r) (SYMBOL r)
               (to_numeric (replace_placeholder (DELIV_PER r))) (DATE1 r).

(** [high_delivery_df.groupby('SERIES')], each group listed as
    [[SYMBOL, DELIV_PER]] pairs in the order of the rows. *)
Definition group_pairs (rows : list NumericRow) (series : string)
    : list (string * float64) :=
  (λ r, (num_SYMBOL r, num_DELIV_PER r)) <$>
    filter (λ r, num_SERIES r = series) rows.

Definition groupby_SERIES (rows : list NumericRow)
    : gmap string (list (string * float64)) :=
  list_to_map ((λ k, (k, group_pairs rows k)) <$> remove_dups (num_SERIES <$> rows)).

(** [None] is the exception [iloc[0]] raises when no row is left after
    the series filter. *)
Definition load_daily_data (file : list SnapshotRow) (min_delivery : float64)
    : option (gmap string (list (string * float64)) * string) :=
  let df := clean_row <$> file in
  let df := filter (λ r, str_match_anchored unwanted_series (num_SERIES r) = false) df in
  let high_delivery_df :=
    filter (λ r, notna (num_DELIV_PER r) = true)
      (filter (λ r, gt (num_DELIV_PER r) min_delivery = true) df) in
  match df with
  | first :: _ => Some (groupby_SERIES high_delivery_df, num_DATE1 first)
  | [] => None
  end.

End Daily.

(** The order in which [daily_analysis] shows a group:
    [sorted(stock_data, key=lambda x: x[1], reverse=True)], a stable sort
    that moves a pair behind another only when its key is smaller. *)
Fixpoint insert_desc (x : string * float64) (l : list (string * float64))
    : list (string * float64) :=
  match l with
  | [] => [x]
  | y :: l' => if gt y.2 x.2 then y :: insert_desc x l' else x :: l
  end.

Definition sorted_stocks (stock_data : list (string * float64)) : list (string * float64) :=
  foldr insert_desc [] stock_data.

(** ** Data Normalizer: [load_historical_data] *)

(** A row of the historical report as [read_csv] delivers it.  The loader
    reads three columns; whatever else the row carries passes through. *)
Record RawRow (X : Type) : Type := mkRawRow {
  raw_Symbol : string;
  raw_Date : string;
  raw_Dly : string;
  raw_rest : X
}.
Arguments mkRawRow {X}.
Arguments raw_Symbol {X}.
Arguments raw_Date {X}.
Arguments raw_Dly {X}.
Arguments raw_rest {X}.

Record HistRow (X : Type) : Type := mkHistRow {
  hist_Symbol : string;
  hist_Date : Z;
  hist_Dly : float64;
  hist_rest : X
}.
Arguments mkHistRow {X}.
Arguments hist_Symbol {X}.
Arguments hist_Date {X}.
Arguments hist_Dly {X}.
Arguments hist_rest {X}.

(** The exceptions the loader lets through: both conversions raise
    [ValueError] on the first cell they cannot read. *)
Inductive LoadError : Type :=
| ValueError_date (cell : string)
| ValueError_float (cell : string).

Section Historical.

Context {X : Type}.

(** [strptime] for ['%d-%b-%Y'] as a day number, and Python's [float]. *)
Variable strptime : string → option Z.
Variable float_of_text : string → option float64.

Fixpoint to_datetime (cells : list string) : LoadError + list Z :=
  match cells with
  | [] => inr []
  | c :: cells' =>
      match strptime (strip c) with
      | None => inl (ValueError_date c)
      | Some d =>
          match to_datetime cells' with
          | inl e => inl e
          | inr ds => inr (d :: ds)
          end
      end
  end.

Fixpoint astype_float (cells : list string) : LoadError + list float64 :=
  match cells with
  | [] => inr []
  | c :: cells' =>
      match float_of_text (remove_commas (strip c)) with
      | None => inl (ValueError_float c)
      | Some x =>
          match astype_float cells' with
          | inl e => inl e
          | inr xs => inr (x :: xs)
          end
      end
  end.

Fixpoint insert_hist (r : HistRow X) (l : list (HistRow X)) : list (HistRow X) :=
  match l with
  | [] => [r]
  | r' :: l' =>
      if decide (hist_Date r ≤ hist_Date r')%Z then r :: l
      else r' :: insert_hist r l'
  end.

Definition sort_hist (rows : list (HistRow X)) : list (HistRow X) :=
  foldr insert_hist [] rows.

Definition load_historical_data (file : list (RawRow X))
    : LoadError + list (HistRow X) :=
  match to_datetime (raw_Date <$> file) with
  | inl e => inl e
  | inr dates =>
      match astype_float (raw_Dly <$> file) with
      | inl e => inl e
      | inr dly =>
          inr (sort_hist
                 (zip_with (λ r dx, mkHistRow (strip (raw_Symbol r)) dx.1 dx.2 (raw_rest r))
                           file (zip dates dly)))
      end
  end.

End Historical.

(** A reader of plain decimal numerals ([12], [92.5], [-3.25]), enough to
    run the loaders on report cells. *)
Definition digit_value (c : ascii) : option Z :=
  let n := N_of_ascii c in
  if ((48 <=? n) && (n <=? 57))%N then Some (Z.of_N (n - 48)) else None.

Fixpoint read_digits (acc : Z) (scale : positive) (s : string) : option (Z * positive) :=
  match s with
  | EmptyString => Some (acc, scale)
  | String c s' =>
      match digit_value c with
      | Some d => read_digits (10 * acc + d) (10 * scale) s'
      | None => None
      end
  end.

Fixpoint split_dot (s : string) : string * option string :=
  match s with
  | EmptyString => (EmptyString, None)
  | String c s' =>
      if Ascii.eqb c "." then (EmptyString, Some s')
      else let '(a, b) := split_dot s' in (String c a, b)
  end.

Definition read_unsigned (s : string) : option Q :=
  let '(whole, frac) := split_dot s in
  match whole, frac with
  | EmptyString, (None | Some EmptyString) => None
  | _, _ =>
      '(w, _) ← read_digits 0 1 whole;
      '(f, scale) ← read_digits 0 1 (default EmptyString frac);
      Some (Qred (inject_Z w + (f # scale)))
  end.

Definition decimal_of_text (s : string) : option float64 :=
  match s with
  | String "-" s' => (λ q, Fin (Qred (- q))) <$> read_unsigned s'
  | _ => Fin <$> read_unsigned s
  end.

(** A reader of dates such as [15-Jan-2024], giving the day number counted
    from 1 January 1970. *)
Fixpoint split_dash (s : string) : list string :=
  match s with
  | EmptyString => [EmptyString]
  | String c s' =>
      match split_dash s' with
      | part :: parts =>
          if Ascii.eqb c "-" then EmptyString :: part :: parts
          else String c part :: parts
      | [] => [String c EmptyString]
      end
  end.

Definition month_of_text (s : string) : option Z :=
  list_find (λ m, m = s)
    ["Jan"; "Feb"; "Mar"; "Apr"; "May"; "Jun"; "Jul"; "Aug"; "Sep"; "Oct"; "Nov"; "Dec"]
  ≫= λ p, Some (Z.of_nat (S p.1)).

Definition days_from_civil (y m d : Z) : Z :=
  let y' := if m <=? 2 then y - 1 else y in
  let era := y' / 400 in
  let yoe := y' - era * 400 in
  let doy := (153 * (if 2 <? m then m - 3 else m + 9) + 2) / 5 + d - 1 in
  let doe := yoe * 365 + yoe / 4 - yoe / 100 + doy in
  era * 146097 + doe - 719468.

Definition date_of_text (s : string) : option Z :=
  match split_dash s with
  | [dd; mon; yyyy] =>
      '(d, _) ← read_digits 0 1 dd;
      m ← month_of_text mon;
      '(y, _) ← read_digits 0 1 yyyy;
      if (1 <=? d) && (d <=? 31) && negb (String.eqb dd "") && negb (String.eqb yyyy "")
      then Some (days_from_civil y m d) else None
  | _ => None
  end.

(** ** Properties the specification states, as predicates on columns *)

(** The run-length law of a streak counter over its flag column: the
    first row counts 1, a row whose flag differs from the row before counts
    1, any other row counts one more than the row before. *)
Definition streak_law (flag : list bool) (count : list nat) : Prop :=
  length count = length flag ∧
  (flag ≠ [] → count !! 0%nat = Some 1%nat) ∧
  (∀ (i : nat) (b b' : bool) (c : nat),
      flag !! i = Some b → flag !! S i = Some b' → count !! i = Some c →
      count !! S i = Some (if decide (b' = b) then S c else 1%nat)).

(** The same law as a single pass that carries the previous flag and the
    current streak length. *)
Fixpoint run_lengths (prev : option bool) (count : nat) (flag : list bool) : list nat :=
  match flag with
  | [] => []
  | b :: flag' =>
      let c := if decide (prev = Some b) then S count else 1%nat in
      c :: run_lengths (Some b) c flag'
  end.

(** The lookback window of the specification for an event on day [d]: the
    rows dated within [d - 90, d], both ends included; the number of
    high-delivery rows in it, and the delivery percentages of all its rows. *)
Definition in_lookback (d : Z) (r : Row) : Prop := d - 90 ≤ row_Date r ≤ d.

Definition window_high_count (rows : list Row) (threshold : float64) (d : Z) : nat :=
  length (filter (λ r, in_lookback d r ∧ gt (row_Dly r) threshold = true) rows).

Definition window_values (rows : list Row) (d : Z) : list float64 :=
  row_Dly <$> filter (in_lookback d) rows.

(** Rows in ascending date order. *)
Definition date_ascending (dates : list Z) : Prop := StronglySorted Z.le dates.

(** The sum of integer cells, and the last [k] rows of a column up to and
    including row [i]. *)
Definition Zsum (l : list Z) : Z := foldr Z.add 0 l.

Definition last_rows {A : Type} (k i : nat) (s : list A) : list A :=
  take k (drop (S i - k) s).

(** A sequence of (symbol, delivery) pairs in descending delivery order:
    no pair is followed, anywhere later, by a pair with a larger value. *)
Definition descending (pairs : list (string * float64)) : Prop :=
  StronglySorted (λ a b, le b.2 a.2 = true) pairs.

(** A small snapshot: two rows without data, one government security, one
    row below and two rows above a minimum of 90. *)
Definition snapshot_example : list SnapshotRow :=
  [ mkSnapshotRow "EQ" "ALPHA" "-" "03-Nov-2025";
    mkSnapshotRow "EQ" "BRAVO" "92.5" "03-Nov-2025";
    mkSnapshotRow "GS" "GILT" "99.0" "03-Nov-2025";
    mkSnapshotRow "EQ" "CHARLIE" "-" "03-Nov-2025";
    mkSnapshotRow "EQ" "DELTA" "88.0" "03-Nov-2025";
    mkSnapshotRow "EQ" "ECHO" "97.25" "03-Nov-2025" ].

(** ** The callers in [stock_delivery_analysis_tool.py]

    What [historical_analysis], [show_summary_dashboard] and
    [daily_analysis] compute from the results of the analyses, without the
    widgets that display it. *)

(** [df[col].max()] on a counter column; an empty column has no maximum
    (pandas gives NaN, and every comparison with it is false). *)
Definition col_max (col : list nat) : option nat :=
  match col with
  | [] => None
  | c :: col' => Some (foldr Nat.max c col')
  end.

(** [len(df[df['% Dly Qt to Traded Qty'] > highlight_threshold])]. *)
Definition high_delivery_days (df : DataFrame) (highlight_threshold : float64) : nat :=
  length (loc_mask (col_gt (Dly_Qt_to_Traded_Qty df) highlight_threshold)
                   (Dly_Qt_to_Traded_Qty df)).

(** [df[df['% Dly Qt to Traded Qty'] > highlight_threshold]['Date'].iloc[0]],
    looked up only when exactly one day is above the threshold. *)
Definition cross_date (df : DataFrame) (highlight_threshold : float64) : option Z :=
  if decide (high_delivery_days df highlight_threshold = 1%nat) then
    head (loc_mask (col_gt (Dly_Qt_to_Traded_Qty df) highlight_threshold) (Date df))
  else None.

Record Analysis : Type := mkAnalysis {
  analysed_frame : DataFrame;
  analysis_signals : list Signal;
  analysis_price : option PriceAnalysis;
  analysis_high_delivery_days : nat;
  analysis_cross_date : option Z;
  analysis_max_consecutive : option nat;
  analysis_max_increases : option nat
}.

(** The computations of [historical_analysis] on the loaded frame.
    [has_Traded_Qty] says whether the file has a column named
    ['Traded Qty'], the column the caller looks for before it runs the
    Volume Analyzer. *)
Definition historical_analysis (has_Traded_Qty : bool) (df : DataFrame)
    (highlight_threshold : float64) : Analysis :=
  let df := if has_Traded_Qty then add_volume_analysis df else df in
  let df := detect_delivery_patterns df highlight_threshold in
  let signals := analyze_delivery_signals df highlight_threshold in
  let '(df, price_analysis) :=
    match Close df with
    | Some _ => analyze_price_correlation df highlight_threshold
    | None => (df, None)
    end in
  mkAnalysis df signals price_analysis
    (high_delivery_days df highlight_threshold)
    (cross_date df highlight_threshold)
    (p ← pattern_columns df; col_max (Consecutive_Days p))
    (p ← pattern_columns df; col_max (Consecutive_Increases p)).

(** [s.isin(values)]. *)
Definition isin (values : list Z) (s : list Z) : list bool :=
  (λ d, bool_decide (d ∈ values)) <$> s.

(** The second metric of [show_summary_dashboard]: the mean volume
    multiple of the rows dated on a signal date; [None] when the metric is
    not shown (no volume columns, or no signal). *)
Definition avg_volume_on_signal_days (df : DataFrame) (signals : list Signal)
    : option float64 :=
  v ← volume_columns df;
  let signal_dates := signal_Date <$> signals in
  match signal_dates with
  | [] => None
  | _ => Some (mean (loc_mask (isin signal_dates (Date df)) (Volume_Multiple v)))
  end.


(** ** [calculate_sector_performance]

    The function reads the symbol column (when the frame has one) and the
    delivery column.  [inl] is the [IndexError] that [iloc[0]] raises on a
    frame without rows, [inr None] the [None] it returns when the symbol
    column or the sector table is missing. *)
Record SectorPerformance : Type := mkSectorPerformance {
  sector : string;
  avg_delivery : float64;
  sector_high_delivery_days : nat
}.

Inductive IndexError : Type := single_positional_indexer_out_of_bounds.

Definition calculate_sector_performance (Symbol : option (list string))
    (dly : list float64) (sector_info : option (gmap string string))
    : IndexError + option SectorPerformance :=
  match Symbol, sector_info with
  | Some symbols, Some info =>
      match symbols with
      | [] => inl single_positional_indexer_out_of_bounds
      | symbol :: _ =>
          inr (Some (mkSectorPerformance
                       (default "Unknown"%string (info !! symbol))
                       (mean dly)
                       (length (filter (λ b, b = true) (col_gt dly (of_Z 90))))))
      end
  | _, _ => inr None
  end.

(** ** Predicates for the properties of the added code *)

(** A row of the snapshot is dropped by the series filter. *)
Definition excluded (r : NumericRow) : Prop :=
  str_match_anchored unwanted_series (num_SERIES r) = true.

(** Signals more than 90 days apart, in date order. *)
Definition spaced (signals : list Signal) : Prop :=
  StronglySorted (λ a b, signal_Date a + 90 < signal_Date b) signals.

(** The signal a row gives when it qualifies. *)
Definition signal_of (rows : list Row) (row : Row) : Signal :=
  mkSignal (row_Date row) (row_Dly row)
           (mean (window_values rows (row_Date row))) (row_Volume row).

(** A bound on the length of the words of a regular expression; [None]
    when it has no word at all. *)
Fixpoint max_word (r : regex) : option nat :=
  match r with
  | Void => None
  | Eps => Some 0%nat
  | Chr _ | Range _ _ => Some 1%nat
  | Alt r1 r2 =>
      match max_word r1, max_word r2 with
      | Some n1, Some n2 => Some (Nat.max n1 n2)
      | Some n, None | None, Some n => Some n
      | None, None => None
      end
  | Cat r1 r2 =>
      match max_word r1, max_word r2 with
      | Some n1, Some n2 => Some (n1 + n2)%nat
      | _, _ => None
      end
  end.

(** All 256 characters. *)
Definition all_ascii : list ascii := (λ n, ascii_of_nat n) <$> seq 0 256.

Definition in_exclusion_set (s : string) : bool := bool_decide (s ∈ exclusion_set).

(** * Theorems *)

(** ** Pattern Detector *)

Section Streaks.

Implicit Types (flag : list bool) (seen keys : list nat).

(** [ne_shift], read row by row with the previous flag in hand. *)
Lemma ne_shift_unfold (p : option bool) flag :
  zip_with (λ b q, changed q b) flag (take (length flag) (p :: (Some <$> flag)))
  = match flag with
    | [] => []
    | b :: flag' =>
        changed p b ::
        zip_with (λ b q, changed q b) flag'
                 (take (length flag') (Some b :: (Some <$> flag')))
    end.
Proof. destruct flag; reflexivity. Qed.

Lemma streaks_run_lengths_gen flag :
  ∀ (p : option bool) seen (acc count : nat),
    Forall (λ k, k ≤ acc)%nat seen →
    length (filter (λ k', k' = acc) seen) = count →
    S <$> cumcount_from seen
            (cumsum_from acc
               (zip_with (λ b q, changed q b) flag
                  (take (length flag) (p :: (Some <$> flag)))))
    = run_lengths p count flag.
Proof.
  induction flag as [|b flag IH]; intros p seen acc count Hle Hcnt; [done|].
  rewrite ne_shift_unfold. cbn [cumsum_from cumcount_from fmap list_fmap run_lengths].
  assert (Hfresh : length (filter (λ k', k' = S acc) seen) = 0%nat).
  { clear -Hle. induction Hle as [|k seen Hk _ IHs]; [done|].
    rewrite filter_cons_False by lia. exact IHs. }
  destruct (changed p b) eqn:Hch.
  - (* the flag changed: a new group starts *)
    replace (acc + 1)%nat with (S acc) by lia.
    rewrite Hfresh.
    assert (Hne : p ≠ Some b).
    { intros ->. cbn in Hch. by rewrite Bool.eqb_reflx in Hch. }
    rewrite decide_False by exact Hne.
    f_equal. apply IH.
    + constructor; [lia|]. eapply Forall_impl; [exact Hle|]. cbn. lia.
    + rewrite filter_cons_True by done. cbn. by rewrite Hfresh.
  - (* the flag stayed: the group goes on *)
    replace (acc + 0)%nat with acc by lia.
    assert (Heq : p = Some b).
    { destruct p as [b'|]; [|done]. cbn in Hch.
      apply Bool.negb_false_iff, Bool.eqb_prop in Hch. by subst. }
    rewrite decide_True by exact Heq. rewrite Hcnt.
    f_equal. apply IH.
    + constructor; [lia|done].
    + rewrite filter_cons_True by done. cbn. by rewrite Hcnt.
Qed.

(** The pandas idiom computes the run lengths of the flag column. *)
Lemma streaks_run_lengths flag : streaks flag = run_lengths None 0 flag.
Proof.
  unfold streaks, cumcount, cumsum, ne_shift, shift.
  change (replicate 1 None ++ (Some <$> flag)) with (None :: (Some <$> flag)).
  apply (streaks_run_lengths_gen flag None [] 0%nat 0%nat); [constructor|done].
Qed.

Lemma run_lengths_length flag : ∀ p c, length (run_lengths p c flag) = length flag.
Proof. induction flag as [|b flag IH]; intros p c; cbn; [done|]. by rewrite IH. Qed.

Lemma run_lengths_step flag :
  ∀ (p : option bool) (c0 : nat) (i : nat) (b b' : bool) (c : nat),
    flag !! i = Some b → flag !! S i = Some b' →
    run_lengths p c0 flag !! i = Some c →
    run_lengths p c0 flag !! S i = Some (if decide (b' = b) then S c else 1%nat).
Proof.
  induction flag as [|b0 flag IH]; intros p c0 i b b' c Hi HSi Hc; [done|].
  destruct i as [|i].
  - cbn in Hi, Hc. simplify_eq. destruct flag as [|b1 flag]; [done|].
    cbn in HSi. simplify_eq. cbn.
    destruct (decide (Some b = Some b')), (decide (b' = b)); try done; congruence.
  - cbn in Hi, Hc |- *. cbn in HSi. by eapply IH.
Qed.

Lemma streaks_law flag : streak_law flag (streaks flag).
Proof.
  rewrite streaks_run_lengths. split; [apply run_lengths_length|]. split.
  - destruct flag; [done|]. intros _. reflexivity.
  - intros i b b' c. apply run_lengths_step.
Qed.

(** A counter measures a run: the [c] rows up to and including row [i]
    all carry the flag of row [i]. *)
Lemma run_lengths_run flag :
  ∀ (p : option bool) (c0 : nat) (i : nat) (b : bool) (c : nat),
    flag !! i = Some b → run_lengths p c0 flag !! i = Some c →
    (∀ j : nat, (i + 1 - c ≤ j ≤ i)%nat → flag !! j = Some b) ∧
    ((i + 1 < c)%nat → p = Some b) ∧
    (c ≤ i + 1 + c0)%nat.
Proof.
  induction flag as [|b0 flag IH]; intros p c0 i b c Hi Hc; [done|].
  destruct i as [|i].
  - cbn in Hi, Hc. simplify_eq. split; [|split].
    + intros j Hj. by replace j with 0%nat by lia.
    + intros Hlt. case_decide; [done|lia].
    + case_decide; lia.
  - cbn in Hi, Hc.
    destruct (IH (Some b0) _ i b c Hi Hc) as (Hrun & Hprev & Hbound).
    split; [|split].
    + intros [|j] Hj.
      * cbn. apply Hprev. lia.
      * cbn. apply Hrun. lia.
    + intros Hlt. assert (Hb : Some b0 = Some b) by (apply Hprev; lia).
      case_decide as Hp; [congruence|lia].
    + case_decide; lia.
Qed.

Lemma streaks_run flag (i : nat) (b : bool) (c : nat) :
  flag !! i = Some b → streaks flag !! i = Some c →
  (c ≤ i + 1)%nat ∧ ∀ j : nat, (i + 1 - c ≤ j ≤ i)%nat → flag !! j = Some b.
Proof.
  rewrite streaks_run_lengths. intros Hi Hc.
  destruct (run_lengths_run flag None 0%nat i b c Hi Hc) as (Hrun & _ & Hbound).
  split; [lia|exact Hrun].
Qed.

End Streaks.

Lemma zip_shift_lookup {A B : Type} (f : A → option A → B) (s : list A) :
  ∀ (p : option A) (i : nat) (x y : A),
    s !! i = Some x → s !! S i = Some y →
    zip_with f s (take (length s) (p :: (Some <$> s))) !! S i = Some (f y (Some x)).
Proof.
  induction s as [|a s IH]; intros p i x y Hi HSi; [done|].
  cbn [length take fmap list_fmap zip_with].
  destruct i as [|i].
  - cbn in Hi. simplify_eq. destruct s as [|a' s]; [done|].
    cbn in HSi. simplify_eq. reflexivity.
  - cbn in Hi, HSi. rewrite lookup_cons_ne_0 by done. cbn [pred].
    exact (IH (Some a) i x y Hi HSi).
Qed.

Lemma diff_step (s : list float64) (i : nat) (x y : float64) :
  s !! i = Some x → s !! S i = Some y → diff s !! S i = Some (sub y x).
Proof.
  intros Hi HSi. unfold diff, shift.
  change (replicate 1 None ++ (Some <$> s)) with (@None float64 :: (Some <$> s)).
  by rewrite (zip_shift_lookup _ s None i x y Hi HSi).
Qed.

(** C2. After the Pattern Detector has run, on any series (sorted by date
    or not): [Consecutive_Days] is 1 on the first row and on every row
    whose [High_Delivery] differs from the row before, and one more than
    the row before otherwise; [Consecutive_Increases] obeys the same law
    over [Increasing_Delivery], which is [Delivery_Change > 0] with the
    change of the first row NaN, every later change being the difference
    to the row before, and an undefined change never counting as an
    increase. *)
Theorem detect_delivery_patterns_streak_law (df : DataFrame) (threshold : float64) :
  ∃ p : PatternColumns,
    pattern_columns (detect_delivery_patterns df threshold) = Some p ∧
    High_Delivery p = col_gt (Dly_Qt_to_Traded_Qty df) threshold ∧
    streak_law (High_Delivery p) (Consecutive_Days p) ∧
    Increasing_Delivery p = col_gt (Delivery_Change p) (Fin 0) ∧
    streak_law (Increasing_Delivery p) (Consecutive_Increases p) ∧
    (Dly_Qt_to_Traded_Qty df ≠ [] →
       Delivery_Change p !! 0%nat = Some NaN ∧
       Increasing_Delivery p !! 0%nat = Some false ∧
       Consecutive_Days p !! 0%nat = Some 1%nat ∧
       Consecutive_Increases p !! 0%nat = Some 1%nat) ∧
    (∀ (i : nat) (x y : float64),
       Dly_Qt_to_Traded_Qty df !! i = Some x →
       Dly_Qt_to_Traded_Qty df !! S i = Some y →
       Delivery_Change p !! S i = Some (sub y x)) ∧
    (∀ i : nat,
       Delivery_Change p !! i = Some NaN → Increasing_Delivery p !! i = Some false).
Proof.
  eexists. split; [reflexivity|]. cbn.
  split; [reflexivity|]. split; [apply streaks_law|].
  split; [reflexivity|]. split; [apply streaks_law|]. split; [|split].
  - destruct (Dly_Qt_to_Traded_Qty df) as [|x s]; [done|]. intros _.
    repeat split; reflexivity.
  - intros i x y. apply diff_step.
  - intros i Hnan. unfold col_gt. by rewrite list_lookup_fmap, Hnan.
Qed.

Example scenario1_patterns :
  let df := base_frame [1; 2; 3; 4; 5] (of_Z <$> [70; 95; 96; 60; 97]) None None None in
  pattern_columns (detect_delivery_patterns df (of_Z 90)) =
  Some (mkPattern [false; true; true; false; true] [1; 1; 2; 1; 1]%nat
          [NaN; Fin 25; Fin 1; Fin (-36); Fin 37]
          [false; true; true; false; true] [1; 1; 2; 1; 1]%nat).
Proof. vm_compute. reflexivity. Qed.

(** C9. Running the Pattern Detector on its own output changes nothing:
    the whole frame, and so [High_Delivery], [Consecutive_Days] and
    [Consecutive_Increases], is the one the first run produced. *)
Theorem detect_delivery_patterns_idempotent (df : DataFrame) (threshold : float64) :
  detect_delivery_patterns (detect_delivery_patterns df threshold) threshold
  = detect_delivery_patterns df threshold.
Proof. reflexivity. Qed.

(** ** Signal Detector *)

Section Signals.

Implicit Types (rows : list Row) (row r : Row) (threshold : float64).

Lemma between_spec (lo hi d : Z) : between lo hi d = true ↔ lo ≤ d ≤ hi.
Proof. unfold between. rewrite andb_true_iff, !Z.leb_le. tauto. Qed.

(** The two boolean masks of the loop select the lookback window of the
    specification. *)
Lemma previous_crosses_count rows threshold row :
  length (filter (λ r, between (row_Date row - three_months) (row_Date row) (row_Date r)
                       && gt (row_Dly r) threshold = true) rows)
  = window_high_count rows threshold (row_Date row).
Proof.
  unfold window_high_count. f_equal. apply list_filter_iff. intros r.
  rewrite andb_true_iff, between_spec. reflexivity.
Qed.

Lemma window_rows_values rows row :
  row_Dly <$> filter (λ r, between (row_Date row - three_months) (row_Date row)
                             (row_Date r) = true) rows
  = window_values rows (row_Date row).
Proof.
  unfold window_values. f_equal. apply list_filter_iff. intros r.
  apply between_spec.
Qed.

Lemma signal_for_Some rows threshold row (s : Signal) :
  signal_for rows threshold row = Some s ↔
  gt (row_Dly row) threshold = true ∧
  window_high_count rows threshold (row_Date row) = 1%nat ∧
  s = mkSignal (row_Date row) (row_Dly row)
        (mean (window_values rows (row_Date row))) (row_Volume row).
Proof.
  unfold signal_for. cbv zeta.
  rewrite previous_crosses_count, window_rows_values.
  destruct (gt (row_Dly row) threshold).
  - case_decide as Hone.
    + split; [intros [= <-]; done|]. by intros (_ & _ & ->).
    + split; [done|]. by intros (_ & ? & _).
  - split; [done|]. by intros (? & _).
Qed.

Lemma signal_for_nan rows threshold row :
  row_Dly row = NaN → signal_for rows threshold row = None.
Proof. intros Hnan. unfold signal_for. by rewrite Hnan. Qed.

Lemma filter_delete_False {A : Type} (P : A → Prop) `{!∀ x, Decision (P x)}
    (l : list A) (j : nat) (x : A) :
  l !! j = Some x → ¬ P x → filter P (delete j l) = filter P l.
Proof.
  revert j. induction l as [|a l IH]; intros j Hj Hx; [done|].
  destruct j as [|j]; cbn in Hj.
  - simplify_eq. change (delete 0%nat (x :: l)) with l.
    by rewrite filter_cons_False.
  - change (delete (S j) (a :: l)) with (a :: delete j l).
    rewrite !filter_cons, (IH j Hj Hx). reflexivity.
Qed.

Lemma window_high_count_delete_nan rows threshold (j : nat) row (d : Z) :
  rows !! j = Some row → row_Dly row = NaN →
  window_high_count (delete j rows) threshold d = window_high_count rows threshold d.
Proof.
  intros Hj Hnan. unfold window_high_count. f_equal.
  apply (filter_delete_False _ rows j row Hj). rewrite Hnan. by intros [_ ?].
Qed.

Lemma insert_by_date_perm r rows : insert_by_date r rows ≡ₚ r :: rows.
Proof.
  induction rows as [|r' rows IH]; cbn; [done|].
  case_decide; [done|]. rewrite IH. apply Permutation_swap.
Qed.

Lemma sort_values_perm rows : sort_values rows ≡ₚ rows.
Proof.
  induction rows as [|r rows IH]; cbn; [done|].
  rewrite insert_by_date_perm. by rewrite IH.
Qed.

(** Sorting a frame that is already in date order leaves it as it is. *)
Lemma sort_values_ascending rows :
  date_ascending (row_Date <$> rows) → sort_values rows = rows.
Proof.
  unfold date_ascending.
  induction rows as [|r rows IH]; intros Hs; [done|].
  rewrite fmap_cons in Hs. apply StronglySorted_inv in Hs as [Hs Hall].
  change (sort_values (r :: rows)) with (insert_by_date r (sort_values rows)).
  rewrite (IH Hs). destruct rows as [|r' rows]; [done|].
  rewrite fmap_cons in Hall. apply Forall_cons in Hall as [Hle _].
  cbn. by rewrite decide_True.
Qed.

Lemma iterrows_lookup (df : DataFrame) (i : nat) row :
  iterrows df !! i = Some row →
  Date df !! i = Some (row_Date row) ∧
  Dly_Qt_to_Traded_Qty df !! i = Some (row_Dly row) ∧
  row_Volume row =
    (v ← volume_columns df; Some (Volume_Multiple v !!! i, Delivery_to_Traded v !!! i)).
Proof.
  unfold iterrows. rewrite list_lookup_imap.
  destruct (zip (Date df) (Dly_Qt_to_Traded_Qty df) !! i) as [[d x]|] eqn:Hz; [|done].
  apply lookup_zip_with_Some in Hz as (d' & x' & ? & Hd & Hx). simplify_eq.
  cbn. intros [= <-]. done.
Qed.

Lemma imap_rows_dates (vol : nat → option (float64 * float64)) (ds : list Z) :
  ∀ xs : list float64,
    row_Date <$> imap (λ i '(d, x), mkRow d x (vol i)) (zip ds xs)
    = take (length xs) ds.
Proof.
  revert vol. induction ds as [|d ds IH]; intros vol xs; [by destruct xs|].
  destruct xs as [|x xs]; [done|].
  cbn. f_equal. apply (IH (vol ∘ S)).
Qed.

Lemma iterrows_dates (df : DataFrame) :
  row_Date <$> iterrows df = take (length (Dly_Qt_to_Traded_Qty df)) (Date df).
Proof. apply imap_rows_dates. Qed.

Lemma date_ascending_take (n : nat) (dates : list Z) :
  date_ascending dates → date_ascending (take n dates).
Proof.
  unfold date_ascending. intros Hs. revert n.
  induction Hs as [|d dates Hs IH Hall]; intros [|n]; cbn; try constructor.
  - apply IH.
  - apply Forall_take, Hall.
Qed.

End Signals.

(** C1. On a series in ascending date order the Signal Detector goes
    through the rows in their order and emits a signal for a row exactly
    when that row's delivery percentage exceeds the threshold and exactly
    one row above the threshold is dated within the 90 days up to and
    including the row's date.  The signal carries the row's date, delivery
    percentage and volume cells, and as [Previous Avg] the mean of the
    delivery percentages of all rows in that window (the mean leaves NaN
    cells out, as every pandas mean does). *)
Theorem analyze_delivery_signals_fresh_crossing (df : DataFrame) (threshold : float64) :
  date_ascending (Date df) →
  analyze_delivery_signals df threshold
    = omap (signal_for (iterrows df) threshold) (iterrows df) ∧
  ∀ (i : nat) (row : Row),
    iterrows df !! i = Some row →
    (is_Some (signal_for (iterrows df) threshold row) ↔
       gt (row_Dly row) threshold = true ∧
       window_high_count (iterrows df) threshold (row_Date row) = 1%nat) ∧
    (∀ s : Signal,
       signal_for (iterrows df) threshold row = Some s →
       signal_Date s = row_Date row ∧
       signal_Delivery s = row_Dly row ∧
       signal_Previous_Avg s = mean (window_values (iterrows df) (row_Date row)) ∧
       signal_Volume s = row_Volume row).
Proof.
  intros Hasc. split.
  - unfold analyze_delivery_signals. cbv zeta.
    rewrite sort_values_ascending; [done|].
    rewrite iterrows_dates. by apply date_ascending_take.
  - intros i row _. split.
    + split.
      * intros [s Hs]. apply signal_for_Some in Hs. tauto.
      * intros [Hgt Hcount]. eexists. apply signal_for_Some. eauto.
    + intros s Hs. apply signal_for_Some in Hs as (_ & _ & ->). done.
Qed.

(** Scenario 1 of the specification: the second day is the only signal. *)
Lemma analyze_delivery_signals_fresh_crossing_witness :
  let df := base_frame [1; 2; 3; 4; 5] (of_Z <$> [70; 95; 96; 60; 97]) None None None in
  date_ascending (Date df) ∧
  analyze_delivery_signals df (of_Z 90) = [mkSignal 2 (of_Z 95) (Fin (165 # 2)) None].
Proof.
  cbv zeta. split.
  - repeat constructor; lia.
  - set (df := base_frame _ _ _ _ _).
    assert (Hasc : date_ascending (Date df)) by (repeat constructor; lia).
    rewrite (proj1 (analyze_delivery_signals_fresh_crossing df (of_Z 90) Hasc)).
    vm_compute. reflexivity.
Defined.

(** C10. A row whose delivery percentage is NaN is never a high-delivery
    row, whatever the threshold: its [High_Delivery] flag is false; the
    rows its streak counter counts are all rows that are not high-delivery
    rows, so right after a high-delivery row the counter is back at 1, and
    a high-delivery row right after it starts at 1 as well; taking the row
    out of the series changes no window's count of high-delivery rows; and
    the Signal Detector emits nothing for it, so no emitted signal has an
    undefined delivery percentage. *)
Theorem undefined_delivery_never_high (df : DataFrame) (threshold : float64) (i : nat) :
  Dly_Qt_to_Traded_Qty df !! i = Some NaN →
  (∃ p : PatternColumns,
     pattern_columns (detect_delivery_patterns df threshold) = Some p ∧
     High_Delivery p !! i = Some false ∧
     (∀ c j : nat, Consecutive_Days p !! i = Some c → (i + 1 - c ≤ j ≤ i)%nat →
        High_Delivery p !! j = Some false) ∧
     (∀ j : nat, i = S j → High_Delivery p !! j = Some true →
        Consecutive_Days p !! i = Some 1%nat) ∧
     (High_Delivery p !! S i = Some true → Consecutive_Days p !! S i = Some 1%nat)) ∧
  (∀ row : Row,
     iterrows df !! i = Some row →
     row_Dly row = NaN ∧
     ∃ j : nat,
       sort_values (iterrows df) !! j = Some row ∧
       signal_for (sort_values (iterrows df)) threshold row = None ∧
       ∀ d : Z,
         window_high_count (delete j (sort_values (iterrows df))) threshold d
         = window_high_count (sort_values (iterrows df)) threshold d) ∧
  (∀ s : Signal,
     s ∈ analyze_delivery_signals df threshold → isna (signal_Delivery s) = false).
Proof.
  intros Hnan. split; [|split].
  - eexists. split; [reflexivity|]. cbn.
    assert (Hflag : col_gt (Dly_Qt_to_Traded_Qty df) threshold !! i = Some false).
    { unfold col_gt. rewrite list_lookup_fmap, Hnan. reflexivity. }
    destruct (streaks_law (col_gt (Dly_Qt_to_Traded_Qty df) threshold))
      as (Hlen & _ & Hstep).
    split; [exact Hflag|]. split; [|split].
    + intros c j Hc Hj.
      by apply (streaks_run _ i false c Hflag Hc).
    + intros j -> Hj.
      destruct (lookup_lt_is_Some_2 (streaks (col_gt (Dly_Qt_to_Traded_Qty df) threshold)) j)
        as [c Hc].
      { rewrite Hlen. apply lookup_lt_Some in Hj. exact Hj. }
      rewrite (Hstep j true false c Hj Hflag Hc). reflexivity.
    + intros Hnext.
      destruct (lookup_lt_is_Some_2 (streaks (col_gt (Dly_Qt_to_Traded_Qty df) threshold)) i)
        as [c Hc].
      { rewrite Hlen. apply lookup_lt_Some in Hflag. exact Hflag. }
      rewrite (Hstep i false true c Hflag Hnext Hc). reflexivity.
  - intros row Hrow.
    destruct (iterrows_lookup df i row Hrow) as (_ & Hx & _).
    assert (Hrnan : row_Dly row = NaN) by congruence.
    split; [exact Hrnan|].
    assert (Hin : row ∈ sort_values (iterrows df)).
    { rewrite sort_values_perm. by eapply list_elem_of_lookup_2. }
    apply list_elem_of_lookup_1 in Hin as [j Hj].
    exists j. split; [exact Hj|]. split; [by apply signal_for_nan|].
    intros d. by eapply window_high_count_delete_nan.
  - intros s Hs. unfold analyze_delivery_signals in Hs. cbv zeta in Hs.
    apply list_elem_of_omap in Hs as (row & _ & Hsig).
    apply signal_for_Some in Hsig as (Hgt & _ & ->). cbn.
    destruct (row_Dly row); done.
Qed.

Lemma undefined_delivery_never_high_witness :
  let df := base_frame [1; 2; 3; 4] [of_Z 95; NaN; of_Z 96; of_Z 50] None None None in
  Dly_Qt_to_Traded_Qty df !! 1%nat = Some NaN ∧
  pattern_columns (detect_delivery_patterns df (of_Z 90)) =
    Some (mkPattern [true; false; true; false] [1; 1; 1; 1]%nat
            [NaN; NaN; NaN; Fin (-46)] [false; false; false; false] [1; 2; 3; 4]%nat) ∧
  ∀ s : Signal,
    s ∈ analyze_delivery_signals df (of_Z 90) → isna (signal_Delivery s) = false.
Proof.
  cbv zeta. split; [reflexivity|]. split; [vm_compute; reflexivity|].
  exact (proj2 (proj2 (undefined_delivery_never_high
    (base_frame [1; 2; 3; 4] [of_Z 95; NaN; of_Z 96; of_Z 50] None None None)
    (of_Z 90) 1%nat eq_refl))).
Defined.

(** ** Volume Analyzer *)

Section Volume.

Implicit Types (l traded deliverable : list Z).

Lemma Qred_inject_Z (z : Z) : Qred (inject_Z z) = inject_Z z.
Proof. apply Qcanon.Qred_identity. cbn. apply Z.gcd_1_r. Qed.

Lemma add_of_Z (a b : Z) : add (of_Z a) (of_Z b) = of_Z (a + b).
Proof.
  unfold add, of_Z. f_equal.
  rewrite <- inject_Z_plus. apply Qred_inject_Z.
Qed.

Lemma sum_of_Z l : sum (of_Z <$> l) = of_Z (Zsum l).
Proof.
  induction l as [|z l IH]; [done|].
  cbn [fmap list_fmap]. unfold sum, Zsum in *. cbn [foldr].
  rewrite IH. apply add_of_Z.
Qed.

Lemma dropna_of_Z l : dropna (of_Z <$> l) = of_Z <$> l.
Proof.
  unfold dropna. induction l as [|z l IH]; [done|].
  cbn [fmap list_fmap]. rewrite filter_cons_True by done. by rewrite IH.
Qed.

Lemma Qsgn_pos (n : nat) : Qsgn (inject_Z (Z.of_nat (S n))) = Gt.
Proof. reflexivity. Qed.

(** The mean of integer cells is the finite number sum over count. *)
Lemma mean_of_Z l :
  l ≠ [] →
  mean (of_Z <$> l)
  = Fin (Qred (inject_Z (Zsum l) / inject_Z (Z.of_nat (length l)))).
Proof.
  intros Hne. unfold mean. cbv zeta. rewrite dropna_of_Z.
  destruct l as [|z l]; [done|].
  rewrite sum_of_Z, length_fmap. cbn [fmap list_fmap].
  unfold div, of_nat, of_Z. cbn [length]. by rewrite Qsgn_pos.
Qed.

Lemma rolling_window_last_rows {A : Type} (window i : nat) (s : list A) :
  rolling_window window i s = last_rows (min (S i) window) i s.
Proof.
  unfold rolling_window, last_rows. rewrite take_drop_commute.
  f_equal; [lia|]. f_equal. lia.
Qed.

Lemma last_rows_length {A : Type} (k i : nat) (s : list A) :
  (i < length s)%nat → (k ≤ S i)%nat → length (last_rows k i s) = k.
Proof.
  intros Hi Hk. unfold last_rows. rewrite length_take, length_drop. lia.
Qed.

Lemma rolling_mean_of_Z (window : nat) l (i : nat) :
  (0 < window)%nat → (i < length l)%nat →
  rolling_mean window 1 (of_Z <$> l) !! i
  = Some (Fin (Qred (inject_Z (Zsum (last_rows (min (S i) window) i l))
                     / inject_Z (Z.of_nat (min (S i) window))))).
Proof.
  intros Hw Hi. unfold rolling_mean. rewrite list_lookup_imap.
  destruct (lookup_lt_is_Some_2 (of_Z <$> l) i) as [x ->];
    [by rewrite length_fmap|].
  cbn [fmap option_fmap option_map].
  rewrite rolling_window_last_rows.
  assert (Hw' : last_rows (S i `min` window) i (of_Z <$> l)
                = of_Z <$> last_rows (S i `min` window) i l).
  { unfold last_rows. by rewrite fmap_take, fmap_drop. }
  rewrite Hw', dropna_of_Z, length_fmap.
  pose proof (last_rows_length (S i `min` window) i l Hi ltac:(lia)) as Hlen.
  rewrite decide_True by lia.
  rewrite mean_of_Z; [by rewrite Hlen|].
  intros Hnil. rewrite Hnil in Hlen. cbn [length] in Hlen. lia.
Qed.

Lemma delivery_to_traded_cell (t d : Z) :
  let x := mul (div (of_Z d) (of_Z t)) (Fin 100) in
  (0 < t → ∃ q : Q, x = Fin q ∧ (q == inject_Z d / inject_Z t * 100)%Q) ∧
  (t = 0 → d = 0 → x = NaN) ∧
  (t = 0 → 0 < d → x = PInf) ∧
  (t = 0 → d < 0 → x = NInf).
Proof.
  cbv zeta. repeat split.
  - intros Ht. destruct t as [|t|t]; try lia.
    eexists. split; [reflexivity|]. by rewrite !Qred_correct.
  - by intros -> ->.
  - intros -> Hd. by destruct d.
  - intros -> Hd. by destruct d.
Qed.

End Volume.

(** C8. When both quantity columns are present, [Volume_3M_Avg] of row
    [i] is the sum of the traded quantities of the last [min (i+1) 90] rows
    divided by that number of rows, a finite value for every row of the
    series: the window counts rows, not calendar days, and shrinks at the
    start.  [Avg_Volume] holds on every row the mean traded quantity of the
    whole series, and [Volume_Multiple] of a row is its traded quantity
    divided by that mean. *)
Theorem add_volume_analysis_rolling_rows (df : DataFrame) (traded deliverable : list Z) :
  Total_Traded_Quantity df = Some traded →
  Deliverable_Qty df = Some deliverable →
  length traded = length (Date df) →
  ∃ v : VolumeColumns,
    volume_columns (add_volume_analysis df) = Some v ∧
    (∀ i : nat, (i < length traded)%nat →
       Volume_3M_Avg v !! i
       = Some (Fin (Qred (inject_Z (Zsum (last_rows (min (i + 1) 90) i traded))
                          / inject_Z (Z.of_nat (min (i + 1) 90)))))) ∧
    Avg_Volume v = replicate (length traded) (mean (of_Z <$> traded)) ∧
    (traded ≠ [] →
       mean (of_Z <$> traded)
       = Fin (Qred (inject_Z (Zsum traded) / inject_Z (Z.of_nat (length traded))))) ∧
    (∀ (i : nat) (t : Z), traded !! i = Some t →
       Volume_Multiple v !! i = Some (div (of_Z t) (mean (of_Z <$> traded)))).
Proof.
  intros Ht Hd Hlen. unfold add_volume_analysis. rewrite Ht, Hd.
  eexists. split; [reflexivity|].
  cbn [Volume_3M_Avg Avg_Volume Volume_Multiple]. rewrite <- Hlen.
  split; [|split; [reflexivity|split]].
  - intros i Hi. replace (i + 1)%nat with (S i) by lia.
    apply rolling_mean_of_Z; [lia|exact Hi].
  - apply mean_of_Z.
  - intros i t Hi. unfold col_div. rewrite lookup_zip_with.
    rewrite list_lookup_fmap, Hi.
    rewrite lookup_replicate_2; [done|]. by eapply lookup_lt_Some.
Qed.

Lemma add_volume_analysis_rolling_rows_witness :
  let df := base_frame [1; 2; 3; 400; 500] (of_Z <$> [70; 95; 96; 60; 97])
              (Some [10; 20; 0; 40; 50]) (Some [5; 5; 0; 10; 1]) None in
  ∃ v : VolumeColumns,
    volume_columns (add_volume_analysis df) = Some v ∧
    Volume_3M_Avg v !! 3%nat = Some (Fin (35 # 2)) ∧
    Avg_Volume v = replicate 5 (Fin 24) ∧
    Volume_Multiple v !! 3%nat = Some (Fin (5 # 3)) ∧
    Volume_3M_Avg v !! 4%nat = Some (Fin 24) ∧
    window_values (iterrows df) 500 = [Fin 97].
Proof.
  cbv zeta.
  destruct (add_volume_analysis_rolling_rows
              (base_frame [1; 2; 3; 400; 500] (of_Z <$> [70; 95; 96; 60; 97])
                 (Some [10; 20; 0; 40; 50]) (Some [5; 5; 0; 10; 1]) None)
              [10; 20; 0; 40; 50] [5; 5; 0; 10; 1] eq_refl eq_refl eq_refl)
    as (v & Hv & H3m & Havg & _ & Hmul).
  exists v. split; [exact Hv|]. split; [|split; [|split; [|split]]].
  - rewrite (H3m 3%nat); [reflexivity | cbn; lia].
  - rewrite Havg. reflexivity.
  - rewrite (Hmul 3%nat 40 eq_refl). reflexivity.
  - rewrite (H3m 4%nat); [reflexivity | cbn; lia].
  - reflexivity.
Defined.

(** C7, as the code has it.  With a positive traded quantity
    [Delivery_to_Traded] is the finite number deliverable / traded × 100.
    With a traded quantity of 0 nothing is raised; the cell is NaN only
    when the deliverable quantity is 0 too, and an infinity of the sign of
    the deliverable quantity otherwise. *)
Theorem add_volume_analysis_delivery_to_traded (df : DataFrame)
    (traded deliverable : list Z) (i : nat) (t d : Z) :
  Total_Traded_Quantity df = Some traded →
  Deliverable_Qty df = Some deliverable →
  traded !! i = Some t →
  deliverable !! i = Some d →
  ∃ (v : VolumeColumns) (x : float64),
    volume_columns (add_volume_analysis df) = Some v ∧
    Delivery_to_Traded v !! i = Some x ∧
    (0 < t → ∃ q : Q, x = Fin q ∧ (q == inject_Z d / inject_Z t * 100)%Q) ∧
    (t = 0 → d = 0 → x = NaN) ∧
    (t = 0 → 0 < d → x = PInf) ∧
    (t = 0 → d < 0 → x = NInf).
Proof.
  intros Ht Hd Hti Hdi. unfold add_volume_analysis. rewrite Ht, Hd.
  eexists _, _. split; [reflexivity|]. cbn [Delivery_to_Traded]. split.
  - unfold col_mul_scalar, col_div.
    rewrite list_lookup_fmap, lookup_zip_with, !list_lookup_fmap, Hti, Hdi.
    reflexivity.
  - apply delivery_to_traded_cell.
Qed.

Lemma add_volume_analysis_delivery_to_traded_witness :
  let df := base_frame [1; 2] [of_Z 70; of_Z 95] (Some [40; 0]) (Some [10; 0]) None in
  ∃ v : VolumeColumns,
    volume_columns (add_volume_analysis df) = Some v ∧
    Delivery_to_Traded v = [Fin 25; NaN].
Proof.
  cbv zeta.
  destruct (add_volume_analysis_delivery_to_traded
              (base_frame [1; 2] [of_Z 70; of_Z 95] (Some [40; 0]) (Some [10; 0]) None)
              [40; 0] [10; 0] 1%nat 0 0 eq_refl eq_refl eq_refl eq_refl)
    as (v & x & Hv & _).
  exists v. split; [exact Hv|].
  cbn in Hv. injection Hv as <-. reflexivity.
Defined.

(** C7, the claim as written fails: a row with traded quantity 0 and
    deliverable quantity 5 gets the defined value +infinity, not NaN. *)
Lemma delivery_to_traded_zero_traded_counterexample :
  let df := base_frame [1] [of_Z 70] (Some [0]) (Some [5]) None in
  ∃ v : VolumeColumns,
    volume_columns (add_volume_analysis df) = Some v ∧
    Total_Traded_Quantity df = Some [0] ∧
    Delivery_to_Traded v = [PInf] ∧
    isna PInf = false.
Proof. cbv zeta. eexists. repeat split; reflexivity. Qed.

(** ** Price Correlation Analyzer *)

Section Price.

Lemma shift_lookup {A : Type} (n : nat) (s : list A) (i : nat) :
  (i < length s)%nat →
  shift n s !! i = Some (if decide (i < n)%nat then None else s !! (i - n)%nat).
Proof.
  intros Hi. unfold shift. rewrite lookup_take_lt by exact Hi.
  case_decide as Hn.
  - rewrite lookup_app_l by (rewrite length_replicate; exact Hn).
    by apply lookup_replicate_2.
  - rewrite lookup_app_r by (rewrite length_replicate; lia).
    rewrite length_replicate, list_lookup_fmap.
    destruct (lookup_lt_is_Some_2 s (i - n)) as [x ->]; [lia|done].
Qed.

(** The first [periods] rows have no change; every later row compares
    with the row [periods] rows before. *)
Lemma pct_change_early (periods : nat) (close : list Q) (i : nat) :
  (i < periods)%nat → (i < length close)%nat →
  pct_change periods close !! i = Some NaN.
Proof.
  intros Hp Hi. unfold pct_change. rewrite lookup_zip_with.
  destruct (lookup_lt_is_Some_2 close i Hi) as [x ->].
  rewrite shift_lookup by exact Hi. by rewrite decide_True.
Qed.

Lemma pct_change_later (periods : nat) (close : list Q) (i : nat) (x y : Q) :
  close !! i = Some x → close !! (i + periods)%nat = Some y →
  pct_change periods close !! (i + periods)%nat
  = Some (sub (div (Fin y) (Fin x)) (Fin 1)).
Proof.
  intros Hx Hy. unfold pct_change. rewrite lookup_zip_with, Hy.
  rewrite shift_lookup by (by eapply lookup_lt_Some).
  rewrite decide_False by lia.
  replace (i + periods - periods)%nat with i by lia. by rewrite Hx.
Qed.

Lemma of_bool_of_Z (bs : list bool) : of_bool <$> bs = of_Z <$> (Z.b2z <$> bs).
Proof. induction bs as [|[] bs IH]; [done|..]; cbn; by rewrite IH. Qed.

Lemma Zsum_cons (z : Z) (l : list Z) : Zsum (z :: l) = z + Zsum l.
Proof. reflexivity. Qed.

Lemma Zsum_b2z_count (xs : list float64) (y : float64) :
  Zsum (Z.b2z <$> col_gt xs y)
  = Z.of_nat (length (filter (λ x, gt x y = true) xs)).
Proof.
  unfold col_gt. induction xs as [|x xs IH]; [done|].
  rewrite !fmap_cons, Zsum_cons, IH, filter_cons.
  destruct (gt x y) eqn:Hgt.
  - rewrite decide_True by done. cbn [length Z.b2z]. lia.
  - rewrite decide_False by done. cbn [Z.b2z]. lia.
Qed.

(** The mean of the comparison column is the fraction of its rows that
    compare true: rows with an undefined value compare false and stay in
    the denominator. *)
Lemma mean_bool_fraction (xs : list float64) (y : float64) :
  xs ≠ [] →
  mean_bool (col_gt xs y)
  = Fin (Qred (inject_Z (Z.of_nat (length (filter (λ x, gt x y = true) xs)))
               / inject_Z (Z.of_nat (length xs)))).
Proof.
  intros Hne. unfold mean_bool. rewrite of_bool_of_Z, mean_of_Z.
  - rewrite Zsum_b2z_count. unfold col_gt. by rewrite !length_fmap.
  - destruct xs; [done|]. discriminate.
Qed.

Lemma mean_all_nan (xs : list float64) : Forall (λ x, isna x = true) xs → mean xs = NaN.
Proof.
  intros Hall. unfold mean. cbv zeta.
  replace (dropna xs) with (@nil float64); [done|].
  unfold dropna. induction Hall as [|x xs Hx _ IH]; [done|].
  rewrite filter_cons_False; [exact IH|]. unfold notna. by rewrite Hx.
Qed.

Lemma filter_gt_all_nan (xs : list float64) (y : float64) :
  Forall (λ x, isna x = true) xs → filter (λ x, gt x y = true) xs = [].
Proof.
  induction 1 as [|x xs Hx _ IH]; [done|].
  rewrite filter_cons_False; [exact IH|]. by destruct x.
Qed.

End Price.

(** C5, as the code has it.  With a close-price column the analysis takes
    the 5-row price change of the high-delivery rows.  [correlation] is the
    mean of the defined ones among these changes; [success_rate] is the
    number of high-delivery rows with a positive change divided by the
    number of all high-delivery rows.  With no high-delivery row both are
    NaN.  With high-delivery rows whose changes are all undefined,
    [correlation] is NaN and [success_rate] is 0. *)
Theorem analyze_price_correlation_result (df : DataFrame) (threshold : float64)
    (close : list Q) :
  Close df = Some close →
  let selected :=
    loc_mask (col_gt (Dly_Qt_to_Traded_Qty df) threshold) (pct_change 5 close) in
  ∃ a : PriceAnalysis,
    (analyze_price_correlation df threshold).2 = Some a ∧
    correlation a = mean selected ∧
    (selected = [] → correlation a = NaN ∧ success_rate a = NaN) ∧
    (selected ≠ [] →
       success_rate a
       = Fin (Qred (inject_Z (Z.of_nat (length (filter (λ x, gt x (Fin 0) = true) selected)))
                    / inject_Z (Z.of_nat (length selected))))) ∧
    (selected ≠ [] → Forall (λ x, isna x = true) selected →
       correlation a = NaN ∧ success_rate a = Fin 0) ∧
    (∀ i : nat, (i < 5)%nat → (i < length close)%nat →
       pct_change 5 close !! i = Some NaN) ∧
    (∀ (i : nat) (x y : Q), close !! i = Some x → close !! (i + 5)%nat = Some y →
       pct_change 5 close !! (i + 5)%nat = Some (sub (div (Fin y) (Fin x)) (Fin 1))).
Proof.
  intros Hclose selected. unfold analyze_price_correlation. rewrite Hclose.
  eexists. split; [reflexivity|]. cbn [correlation success_rate]. fold selected.
  split; [reflexivity|]. split; [|split; [|split; [|split]]].
  - intros ->. done.
  - intros Hne. by apply mean_bool_fraction.
  - intros Hne Hall. split; [by apply mean_all_nan|].
    rewrite mean_bool_fraction by exact Hne.
    rewrite filter_gt_all_nan by exact Hall.
    reflexivity.
  - intros i. apply pct_change_early.
  - intros i x y. apply pct_change_later.
Qed.

Lemma analyze_price_correlation_result_witness :
  let df := base_frame [1; 2; 3; 4; 5; 6; 7] (of_Z <$> [70; 95; 60; 50; 40; 96; 97])
              None None (Some [100; 101; 102; 103; 104; 110; 100]%Q) in
  ∃ a : PriceAnalysis,
    (analyze_price_correlation df (of_Z 90)).2 = Some a ∧
    correlation a = Fin (91 # 2020) ∧
    success_rate a = Fin (1 # 3).
Proof.
  cbv zeta.
  destruct (analyze_price_correlation_result
              (base_frame [1; 2; 3; 4; 5; 6; 7] (of_Z <$> [70; 95; 60; 50; 40; 96; 97])
                 None None (Some [100; 101; 102; 103; 104; 110; 100]%Q))
              (of_Z 90) [100; 101; 102; 103; 104; 110; 100]%Q eq_refl)
    as (a & Ha & Hcorr & _ & Hrate & _).
  exists a. split; [exact Ha|]. split.
  - rewrite Hcorr. vm_compute. reflexivity.
  - rewrite Hrate; [vm_compute; reflexivity | vm_compute; discriminate].
Defined.

(** C5, the claim as written fails: with four rows, all of them
    high-delivery rows and none with a defined 5-row price change (scenario
    5 of the specification), [success_rate] is 0, not NaN. *)
Lemma success_rate_undefined_changes_counterexample :
  let df := base_frame [1; 2; 3; 4] (of_Z <$> [95; 96; 97; 98])
              None None (Some [100; 101; 102; 103]%Q) in
  loc_mask (col_gt (Dly_Qt_to_Traded_Qty df) (of_Z 90)) (pct_change 5 [100; 101; 102; 103]%Q)
    = [NaN; NaN; NaN; NaN] ∧
  (analyze_price_correlation df (of_Z 90)).2 = Some (mkPriceAnalysis NaN (Fin 0)) ∧
  isna (Fin 0) = false.
Proof. cbv zeta. repeat split; vm_compute; reflexivity. Qed.

(** ** Daily Snapshot Filter *)

Section Order.

Implicit Types (x y z : float64).

Lemma Qgtb_false (a b : Q) : Qgtb a b = false ↔ (a <= b)%Q.
Proof.
  unfold Qgtb. rewrite Qle_alt. destruct (a ?= b)%Q; split; congruence.
Qed.

Lemma gt_notna x y : gt x y = true → isna x = false ∧ isna y = false.
Proof. by destruct x, y. Qed.

Lemma gt_asym x y : gt x y = true → gt y x = false.
Proof.
  destruct x as [a| | |], y as [b| | |]; try done. cbn. unfold Qgtb.
  rewrite <- (Qcompare_antisym a b). by destruct (a ?= b)%Q.
Qed.

Lemma gt_le_false x y : gt x y = true → le x y = false.
Proof. intros Hgt. destruct x, y; try done; cbn in *; by rewrite Hgt. Qed.

Lemma gt_le_flip x y : gt x y = true → le y x = true.
Proof.
  intros Hgt. pose proof (gt_asym x y Hgt) as Hasym.
  destruct x, y; try done; cbn in *; by rewrite Hasym.
Qed.

Lemma not_gt_le x y : isna x = false → isna y = false → gt x y = false → le x y = true.
Proof. intros Hx Hy Hgt. destruct x, y; try done; cbn in *; by rewrite Hgt. Qed.

Lemma le_trans x y z : le x y = true → le y z = true → le x z = true.
Proof.
  destruct x as [a| | |], y as [b| | |], z as [c| | |]; try done. cbn.
  rewrite !negb_true_iff, !Qgtb_false. apply Qle_trans.
Qed.

End Order.

Section Display.

Implicit Types (pairs : list (string * float64)).

Lemma insert_desc_perm (p : string * float64) pairs : insert_desc p pairs ≡ₚ p :: pairs.
Proof.
  induction pairs as [|q pairs IH]; cbn; [done|].
  destruct (gt q.2 p.2); [|done]. rewrite IH. apply Permutation_swap.
Qed.

Lemma sorted_stocks_perm pairs : sorted_stocks pairs ≡ₚ pairs.
Proof.
  induction pairs as [|p pairs IH]; cbn; [done|].
  rewrite insert_desc_perm. by rewrite IH.
Qed.

Lemma insert_desc_descending (p : string * float64) pairs :
  isna p.2 = false → Forall (λ q, isna q.2 = false) pairs →
  descending pairs → descending (insert_desc p pairs).
Proof.
  unfold descending. intros Hp Hall Hs.
  induction Hs as [|q pairs Hs IH Hq]; cbn.
  - repeat constructor.
  - apply Forall_cons in Hall as [Hqna Hall].
    destruct (gt q.2 p.2) eqn:Hgt.
    + constructor; [by apply IH|].
      rewrite insert_desc_perm. constructor; [by apply gt_le_flip|exact Hq].
    + assert (Hle : le q.2 p.2 = true) by by apply not_gt_le.
      constructor; [by constructor|]. constructor; [exact Hle|].
      eapply Forall_impl; [exact Hq|]. cbn. intros r Hr. by eapply le_trans.
Qed.

(** What [daily_analysis] shows is in descending order of delivery. *)
Lemma sorted_stocks_descending pairs :
  Forall (λ q, isna q.2 = false) pairs → descending (sorted_stocks pairs).
Proof.
  induction 1 as [|p pairs Hp Hall IH]; cbn; [constructor|].
  apply insert_desc_descending; [exact Hp| |exact IH].
  by rewrite sorted_stocks_perm.
Qed.

End Display.

Section Snapshot.

Variable number_of_text : string → option float64.

(** Every code of the exclusion set is matched by the pattern. *)
Lemma exclusion_set_matched (series : string) :
  series ∈ exclusion_set → str_match_anchored unwanted_series series = true.
Proof.
  intros Hin.
  assert (Hall : forallb (str_match_anchored unwanted_series) exclusion_set = true)
    by (vm_compute; reflexivity).
  rewrite forallb_forall in Hall. apply Hall. by apply list_elem_of_In.
Qed.

Lemma fmap_fst_keyed {A B : Type} (f : A → B) (l : list A) :
  ((λ k, (k, f k)) <$> l).*1 = l.
Proof. induction l as [|a l IH]; [done|]. cbn. by rewrite IH. Qed.

Lemma groupby_SERIES_lookup (rows : list NumericRow) (series : string)
    (pairs : list (string * float64)) :
  groupby_SERIES rows !! series = Some pairs ↔
  series ∈ (num_SERIES <$> rows) ∧ pairs = group_pairs rows series.
Proof.
  unfold groupby_SERIES. rewrite <- elem_of_list_to_map.
  - rewrite list_elem_of_fmap. setoid_rewrite elem_of_remove_dups. split.
    + intros (k & [= -> ->] & Hk). done.
    + intros [Hk ->]. eauto.
  - rewrite fmap_fst_keyed. apply NoDup_remove_dups.
Qed.

(** A group of the returned mapping, read off the snapshot: the rows of
    that series with a delivery percentage above the minimum, in the
    order of the file; and the series is not matched by the pattern. *)
Lemma daily_group_contents (file : list SnapshotRow) (min_delivery : float64)
    (grouped : gmap string (list (string * float64))) (date series : string)
    (pairs : list (string * float64)) :
  load_daily_data number_of_text file min_delivery = Some (grouped, date) →
  grouped !! series = Some pairs →
  str_match_anchored unwanted_series series = false ∧
  pairs ≠ [] ∧
  pairs = (λ r, (num_SYMBOL r, num_DELIV_PER r)) <$>
            filter (λ r, num_SERIES r = series ∧ gt (num_DELIV_PER r) min_delivery = true)
                   (clean_row number_of_text <$> file).
Proof.
  unfold load_daily_data. cbv zeta.
  destruct (filter _ (clean_row number_of_text <$> file)) as [|first rest] eqn:Hdf; [done|].
  rewrite <- Hdf. intros [= <- _] Hlook.
  apply groupby_SERIES_lookup in Hlook as [Hkey ->].
  apply list_elem_of_fmap in Hkey as (r & -> & Hr).
  rewrite !list_elem_of_filter in Hr. destruct Hr as (Hna & Hgt & Hnm & Hrin).
  split; [exact Hnm|]. unfold group_pairs. rewrite !list_filter_filter. split.
  - intros Hnil. apply fmap_nil_inv in Hnil.
    eapply (filter_nil_not_elem_of _ _ r); [exact Hnil| |exact Hrin]. done.
  - f_equal. apply list_filter_iff. intros r'. split.
    + intros [[[Hs _] Hg] _]. done.
    + intros [Hs Hg]. repeat split; try done.
      * apply gt_notna in Hg as [Hx _]. unfold notna. by rewrite Hx.
      * by rewrite Hs.
Qed.

End Snapshot.

(** C4. Whatever the snapshot and the minimum: no series code of the
    returned mapping belongs to the exclusion set (the pattern matches none
    of the returned codes), and every pair listed under a code has a
    defined delivery percentage that is above the minimum, so not below or
    equal to it. *)
Theorem load_daily_data_filters (number_of_text : string → option float64)
    (file : list SnapshotRow) (min_delivery : float64)
    (grouped : gmap string (list (string * float64))) (date series : string)
    (pairs : list (string * float64)) :
  load_daily_data number_of_text file min_delivery = Some (grouped, date) →
  grouped !! series = Some pairs →
  (series ∉ exclusion_set) ∧
  str_match_anchored unwanted_series series = false ∧
  ∀ (symbol : string) (delivery : float64),
    (symbol, delivery) ∈ pairs →
    isna delivery = false ∧
    gt delivery min_delivery = true ∧
    le delivery min_delivery = false.
Proof.
  intros Hload Hlook.
  destruct (daily_group_contents number_of_text file min_delivery grouped date series
              pairs Hload Hlook) as (Hnm & _ & ->).
  split; [|split; [exact Hnm|]].
  - intros Hin. apply exclusion_set_matched in Hin. congruence.
  - intros symbol delivery Hin.
    apply list_elem_of_fmap in Hin as (r & [= -> ->] & Hr).
    apply list_elem_of_filter in Hr as [[_ Hgt] _].
    split; [by apply gt_notna in Hgt as [? _]|]. split; [exact Hgt|].
    by apply gt_le_false.
Qed.

Lemma load_daily_data_filters_witness :
  ∃ grouped : gmap string (list (string * float64)),
    load_daily_data decimal_of_text snapshot_example (of_Z 90)
      = Some (grouped, "03-Nov-2025"%string) ∧
    grouped !! "EQ"%string = Some [("BRAVO"%string, Fin (185 # 2)); ("ECHO"%string, Fin (389 # 4))] ∧
    ("EQ"%string ∉ exclusion_set) ∧
    gt (Fin (185 # 2)) (of_Z 90) = true.
Proof.
  eexists. split; [reflexivity|]. split; [vm_compute; reflexivity|].
  destruct (load_daily_data_filters decimal_of_text snapshot_example (of_Z 90)
              _ "03-Nov-2025" "EQ"
              [("BRAVO"%string, Fin (185 # 2)); ("ECHO"%string, Fin (389 # 4))]
              eq_refl ltac:(vm_compute; reflexivity))
    as (Hout & _ & Hrows).
  split; [exact Hout|].
  apply (Hrows "BRAVO"%string). apply list_elem_of_here.
Defined.

(** C3, as the code has it.  A group of the returned mapping lists the
    (symbol, delivery) pairs of its series in the order of the rows of the
    snapshot; the filter does not sort.  The descending order is made by
    the caller: what [daily_analysis] displays is the same pairs, sorted by
    delivery percentage in descending order. *)
Theorem load_daily_data_group_order (number_of_text : string → option float64)
    (file : list SnapshotRow) (min_delivery : float64)
    (grouped : gmap string (list (string * float64))) (date series : string)
    (pairs : list (string * float64)) :
  load_daily_data number_of_text file min_delivery = Some (grouped, date) →
  grouped !! series = Some pairs →
  pairs = (λ r, (num_SYMBOL r, num_DELIV_PER r)) <$>
            filter (λ r, num_SERIES r = series ∧ gt (num_DELIV_PER r) min_delivery = true)
                   (clean_row number_of_text <$> file) ∧
  sorted_stocks pairs ≡ₚ pairs ∧
  descending (sorted_stocks pairs).
Proof.
  intros Hload Hlook.
  destruct (daily_group_contents number_of_text file min_delivery grouped date series
              pairs Hload Hlook) as (_ & _ & Hpairs).
  split; [exact Hpairs|]. split; [apply sorted_stocks_perm|].
  apply sorted_stocks_descending. rewrite Hpairs.
  apply Forall_forall. intros p Hin.
  apply list_elem_of_fmap in Hin as (r & -> & Hr).
  apply list_elem_of_filter in Hr as [[_ Hgt] _].
  by apply gt_notna in Hgt as [? _].
Qed.

Lemma load_daily_data_group_order_witness :
  ∃ grouped : gmap string (list (string * float64)),
    load_daily_data decimal_of_text snapshot_example (of_Z 90)
      = Some (grouped, "03-Nov-2025"%string) ∧
    grouped !! "EQ"%string = Some [("BRAVO"%string, Fin (185 # 2)); ("ECHO"%string, Fin (389 # 4))] ∧
    descending (sorted_stocks [("BRAVO"%string, Fin (185 # 2)); ("ECHO"%string, Fin (389 # 4))]) ∧
    sorted_stocks [("BRAVO"%string, Fin (185 # 2)); ("ECHO"%string, Fin (389 # 4))]
      = [("ECHO"%string, Fin (389 # 4)); ("BRAVO"%string, Fin (185 # 2))].
Proof.
  eexists. split; [reflexivity|]. split; [vm_compute; reflexivity|].
  split; [|reflexivity].
  exact (proj2 (proj2 (load_daily_data_group_order decimal_of_text snapshot_example
           (of_Z 90) _ "03-Nov-2025" "EQ"
           [("BRAVO"%string, Fin (185 # 2)); ("ECHO"%string, Fin (389 # 4))]
           eq_refl ltac:(vm_compute; reflexivity)))).
Defined.

(** C3, the claim as written fails: the group returned for EQ lists BRAVO
    (92.5) before ECHO (97.25), the order of the file, which is not
    descending. *)
Lemma load_daily_data_unsorted_counterexample :
  ∃ grouped : gmap string (list (string * float64)),
    load_daily_data decimal_of_text snapshot_example (of_Z 90)
      = Some (grouped, "03-Nov-2025"%string) ∧
    grouped !! "EQ"%string = Some [("BRAVO"%string, Fin (185 # 2)); ("ECHO"%string, Fin (389 # 4))] ∧
    ¬ descending [("BRAVO"%string, Fin (185 # 2)); ("ECHO"%string, Fin (389 # 4))].
Proof.
  eexists. split; [reflexivity|]. split; [vm_compute; reflexivity|].
  intros Hs. apply StronglySorted_inv in Hs as [_ Hall].
  apply Forall_cons in Hall as [Hle _]. vm_compute in Hle. discriminate.
Qed.

(** ** Data Normalizer *)

Section Normalizer.

Context {X : Type}.
Variable strptime : string → option Z.
Variable float_of_text : string → option float64.

Lemma to_datetime_length (cells : list string) (dates : list Z) :
  to_datetime strptime cells = inr dates → length dates = length cells.
Proof.
  revert dates. induction cells as [|c cells IH]; intros dates; cbn.
  - by intros [= <-].
  - destruct (strptime (strip c)); [|done].
    destruct (to_datetime strptime cells) as [e|ds]; [done|].
    intros [= <-]. cbn. by rewrite (IH ds).
Qed.

Lemma astype_float_length (cells : list string) (xs : list float64) :
  astype_float float_of_text cells = inr xs → length xs = length cells.
Proof.
  revert xs. induction cells as [|c cells IH]; intros xs; cbn.
  - by intros [= <-].
  - destruct (float_of_text (remove_commas (strip c))); [|done].
    destruct (astype_float float_of_text cells) as [e|ys]; [done|].
    intros [= <-]. cbn. by rewrite (IH ys).
Qed.

Lemma insert_hist_perm (r : HistRow X) (rows : list (HistRow X)) :
  insert_hist r rows ≡ₚ r :: rows.
Proof.
  induction rows as [|r' rows IH]; cbn; [done|].
  case_decide; [done|]. rewrite IH. apply Permutation_swap.
Qed.

Lemma sort_hist_perm (rows : list (HistRow X)) : sort_hist rows ≡ₚ rows.
Proof.
  induction rows as [|r rows IH]; cbn; [done|].
  rewrite insert_hist_perm. by rewrite IH.
Qed.

Lemma insert_hist_sorted (r : HistRow X) (rows : list (HistRow X)) :
  date_ascending (hist_Date <$> rows) →
  date_ascending (hist_Date <$> insert_hist r rows).
Proof.
  unfold date_ascending. induction rows as [|r' rows IH]; intros Hs; cbn.
  - repeat constructor.
  - rewrite fmap_cons in Hs. apply StronglySorted_inv in Hs as [Hs Hall].
    case_decide as Hle.
    + rewrite !fmap_cons. constructor; [by constructor|].
      constructor; [exact Hle|].
      eapply Forall_impl; [exact Hall|]. cbn. intros d Hd. lia.
    + rewrite fmap_cons. constructor; [by apply IH|].
      rewrite insert_hist_perm, fmap_cons. constructor; [lia|exact Hall].
Qed.

Lemma sort_hist_sorted (rows : list (HistRow X)) :
  date_ascending (hist_Date <$> sort_hist rows).
Proof.
  induction rows as [|r rows IH]; cbn; [constructor|].
  by apply insert_hist_sorted.
Qed.

End Normalizer.

(** C6, as the code has it.  The loader has no check for an empty table:
    for a table without rows it returns the empty series and raises
    nothing.  It never drops a row either: whenever it returns, the series
    has as many rows as the table and is in ascending date order. *)
Theorem load_historical_data_empty_table (X : Type)
    (strptime : string → option Z) (float_of_text : string → option float64) :
  load_historical_data strptime float_of_text (@nil (RawRow X)) = inr [] ∧
  ∀ (file : list (RawRow X)) (rows : list (HistRow X)),
    load_historical_data strptime float_of_text file = inr rows →
    length rows = length file ∧ date_ascending (hist_Date <$> rows).
Proof.
  split; [reflexivity|]. intros file rows. unfold load_historical_data.
  destruct (to_datetime strptime (raw_Date <$> file)) as [e|dates] eqn:Hd; [done|].
  destruct (astype_float float_of_text (raw_Dly <$> file)) as [e|dly] eqn:Hx; [done|].
  intros [= <-]. split; [|apply sort_hist_sorted].
  apply to_datetime_length in Hd. apply astype_float_length in Hx.
  rewrite length_fmap in Hd, Hx.
  rewrite sort_hist_perm, length_zip_with, length_zip_with. lia.
Qed.

(** C6, the claim as written fails: the table without rows is loaded as
    the empty series, no error is raised. *)
Lemma load_historical_data_empty_counterexample :
  load_historical_data date_of_text decimal_of_text (@nil (RawRow unit)) = inr [].
Proof. reflexivity. Qed.

Example load_historical_data_sorts :
  load_historical_data date_of_text decimal_of_text
    [ mkRawRow " ACME " "16-Jan-2024" " 1,234.50 " tt;
      mkRawRow "ACME" " 15-Jan-2024" "92.5" tt ]
  = inr [ mkHistRow "ACME" 19737 (Fin (185 # 2)) tt;
          mkHistRow "ACME" 19738 (Fin (2469 # 2)) tt ].
Proof. vm_compute. reflexivity. Qed.

Example load_historical_data_bad_date :
  load_historical_data date_of_text decimal_of_text
    [ mkRawRow "ACME" "2024-01-16" "92.5" tt ]
  = inl (ValueError_date "2024-01-16").
Proof. vm_compute. reflexivity. Qed.

(** * Further properties of the analyses and their callers *)

(** ** Signal Detector: spacing, order of the rows, number of signals *)

Section SignalFacts.

Implicit Types (rows : list Row) (row r : Row) (threshold : float64).

Lemma omap_StronglySorted {A B : Type} (f : A → option B) (R : relation B)
    (l : list A) :
  (∀ (i j : nat) (x y : A) (a b : B),
      (i < j)%nat → l !! i = Some x → l !! j = Some y →
      f x = Some a → f y = Some b → R a b) →
  StronglySorted R (omap f l).
Proof.
  induction l as [|x l IH]; intros Hpair; [constructor|].
  assert (Htail : StronglySorted R (omap f l)).
  { apply IH. intros i j x' y' a b Hij Hi Hj. apply (Hpair (S i) (S j)); [lia|done..]. }
  cbn. destruct (f x) as [a|] eqn:Hfx; [|exact Htail].
  constructor; [exact Htail|].
  apply Forall_forall. intros b Hb.
  apply list_elem_of_omap in Hb as (y & Hy & Hfy).
  apply list_elem_of_lookup_1 in Hy as [j Hj].
  apply (Hpair 0%nat (S j) x y); [lia|done..].
Qed.

Lemma StronglySorted_lookup_rel {A : Type} (R : relation A) (l : list A)
    (i j : nat) (x y : A) :
  StronglySorted R l → (i < j)%nat → l !! i = Some x → l !! j = Some y → R x y.
Proof.
  intros Hs. revert i j. induction Hs as [|a l Hs IH Hall]; intros i j Hij Hi Hj; [done|].
  destruct j as [|j]; [lia|]. destruct i as [|i].
  - cbn in Hi, Hj. simplify_eq. rewrite Forall_forall in Hall.
    apply Hall. by eapply list_elem_of_lookup_2.
  - cbn in Hi, Hj. apply (IH i j); [lia|done..].
Qed.

Lemma filter_length_pos {A : Type} (P : A → Prop) `{!∀ x, Decision (P x)}
    (l : list A) (x : A) :
  x ∈ l → P x → (1 ≤ length (filter P l))%nat.
Proof.
  intros Hin HP.
  assert (Hx : x ∈ filter P l) by by apply list_elem_of_filter.
  destruct (filter P l); [by apply not_elem_of_nil in Hx|cbn; lia].
Qed.

Lemma filter_length_two {A : Type} (P : A → Prop) `{!∀ x, Decision (P x)}
    (l : list A) :
  ∀ (i j : nat) (x y : A),
    (i < j)%nat → l !! i = Some x → l !! j = Some y → P x → P y →
    (2 ≤ length (filter P l))%nat.
Proof.
  induction l as [|a l IH]; intros i j x y Hij Hi Hj Hx Hy; [done|].
  destruct j as [|j]; [lia|]. cbn in Hj. destruct i as [|i]; cbn in Hi.
  - simplify_eq. rewrite filter_cons_True by done. cbn.
    pose proof (filter_length_pos P l y (list_elem_of_lookup_2 _ _ _ Hj) Hy). lia.
  - pose proof (IH i j x y ltac:(lia) Hi Hj Hx Hy) as Hl.
    rewrite filter_cons. destruct (decide (P a)); cbn; lia.
Qed.

Lemma insert_by_date_sorted r rows :
  date_ascending (row_Date <$> rows) →
  date_ascending (row_Date <$> insert_by_date r rows).
Proof.
  unfold date_ascending. induction rows as [|r' rows IH]; intros Hs; cbn.
  - repeat constructor.
  - rewrite fmap_cons in Hs. apply StronglySorted_inv in Hs as [Hs Hall].
    case_decide as Hle.
    + rewrite !fmap_cons. constructor; [by constructor|].
      constructor; [exact Hle|].
      eapply Forall_impl; [exact Hall|]. cbn. intros d Hd. lia.
    + rewrite fmap_cons. constructor; [by apply IH|].
      rewrite insert_by_date_perm, fmap_cons. constructor; [lia|exact Hall].
Qed.

Lemma sort_values_sorted rows : date_ascending (row_Date <$> sort_values rows).
Proof.
  induction rows as [|r rows IH]; cbn; [constructor|].
  by apply insert_by_date_sorted.
Qed.

Lemma sorted_rows_dates rows (i j : nat) (x y : Row) :
  date_ascending (row_Date <$> rows) → (i < j)%nat →
  rows !! i = Some x → rows !! j = Some y → row_Date x ≤ row_Date y.
Proof.
  intros Hs Hij Hi Hj.
  apply (StronglySorted_lookup_rel Z.le (row_Date <$> rows) i j); [done..| |].
  - by rewrite list_lookup_fmap, Hi.
  - by rewrite list_lookup_fmap, Hj.
Qed.

(** Two rows that both give a signal are more than 90 days apart. *)
Lemma signals_apart rows threshold (i j : nat) (x y : Row) (a b : Signal) :
  date_ascending (row_Date <$> rows) → (i < j)%nat →
  rows !! i = Some x → rows !! j = Some y →
  signal_for rows threshold x = Some a → signal_for rows threshold y = Some b →
  signal_Date a + 90 < signal_Date b.
Proof.
  intros Hs Hij Hi Hj Ha Hb.
  apply signal_for_Some in Ha as (Hgx & _ & ->).
  apply signal_for_Some in Hb as (Hgy & Hcount & ->). cbn.
  pose proof (sorted_rows_dates rows i j x y Hs Hij Hi Hj) as Hle.
  destruct (decide (row_Date x + 90 < row_Date y)) as [|Hnear]; [done|].
  exfalso.
  assert (Htwo : (2 ≤ window_high_count rows threshold (row_Date y))%nat).
  { unfold window_high_count.
    apply (filter_length_two _ rows i j x y Hij Hi Hj);
      (split; [unfold in_lookback; lia|done]). }
  lia.
Qed.

End SignalFacts.

(** X1. Whatever the frame and the threshold, the signals come out in date
    order and any two of them are more than 90 days apart. *)
Theorem analyze_delivery_signals_spaced (df : DataFrame) (threshold : float64) :
  spaced (analyze_delivery_signals df threshold).
Proof.
  unfold spaced, analyze_delivery_signals. cbv zeta.
  apply omap_StronglySorted. intros i j x y a b Hij Hi Hj Ha Hb.
  eapply signals_apart; [apply sort_values_sorted|exact Hij|done..].
Qed.

Section MeanOrder.

Implicit Types (x y z : float64) (l : list float64).

Lemma add_comm x y : add x y = add y x.
Proof.
  destruct x as [a| | |], y as [b| | |]; try reflexivity.
  cbn. f_equal. apply Qred_complete. ring.
Qed.

Lemma add_assoc x y z : add x (add y z) = add (add x y) z.
Proof.
  destruct x as [a| | |], y as [b| | |], z as [c| | |]; try reflexivity.
  cbn. f_equal. apply Qred_complete. rewrite !Qred_correct. ring.
Qed.

(** The sum of a column does not depend on the order of its cells. *)
Lemma sum_Permutation l l' : l ≡ₚ l' → sum l = sum l'.
Proof.
  unfold sum. induction 1 as [|x l l' _ IH|x y l|l l' l'' _ IH1 _ IH2]; cbn.
  - reflexivity.
  - by rewrite IH.
  - by rewrite !add_assoc, (add_comm y x).
  - by rewrite IH1.
Qed.

Lemma mean_Permutation l l' : l ≡ₚ l' → mean l = mean l'.
Proof.
  intros Hperm. unfold mean. cbv zeta.
  assert (Hobs : dropna l ≡ₚ dropna l') by (unfold dropna; by rewrite Hperm).
  pose proof (Permutation_length Hobs) as Hlen.
  pose proof (sum_Permutation _ _ Hobs) as Hsum.
  destruct (dropna l) as [|x obs], (dropna l') as [|x' obs']; try done.
  by rewrite Hsum, Hlen.
Qed.

Lemma window_high_count_Permutation (rows rows' : list Row) (threshold : float64) (d : Z) :
  rows ≡ₚ rows' → window_high_count rows threshold d = window_high_count rows' threshold d.
Proof. intros Hperm. unfold window_high_count. by rewrite Hperm. Qed.

Lemma window_mean_Permutation (rows rows' : list Row) (d : Z) :
  rows ≡ₚ rows' → mean (window_values rows d) = mean (window_values rows' d).
Proof.
  intros Hperm. apply mean_Permutation. unfold window_values. by rewrite Hperm.
Qed.

Lemma signal_of_Permutation (rows rows' : list Row) (row : Row) :
  rows ≡ₚ rows' → signal_of rows row = signal_of rows' row.
Proof. intros Hperm. unfold signal_of. by rewrite (window_mean_Permutation _ _ _ Hperm). Qed.

End MeanOrder.

(** X2. The Signal Detector does not depend on the order of the rows it is
    given: on any frame, sorted or not, a signal is emitted exactly for the
    rows above the threshold that are the only such row in their 90-day
    window, the window and its mean being taken over the rows as given. *)
Theorem analyze_delivery_signals_any_order (df : DataFrame) (threshold : float64)
    (s : Signal) :
  s ∈ analyze_delivery_signals df threshold ↔
  ∃ row : Row,
    row ∈ iterrows df ∧
    gt (row_Dly row) threshold = true ∧
    window_high_count (iterrows df) threshold (row_Date row) = 1%nat ∧
    s = signal_of (iterrows df) row.
Proof.
  unfold analyze_delivery_signals. cbv zeta.
  pose proof (sort_values_perm (iterrows df)) as Hperm.
  rewrite list_elem_of_omap. split.
  - intros (row & Hin & Hsig). exists row.
    apply signal_for_Some in Hsig as (Hgt & Hcount & ->).
    rewrite Hperm in Hin.
    rewrite (window_high_count_Permutation _ _ _ _ Hperm) in Hcount.
    split; [exact Hin|]. split; [exact Hgt|]. split; [exact Hcount|].
    apply (signal_of_Permutation _ _ _ Hperm).
  - intros (row & Hin & Hgt & Hcount & ->). exists row.
    split; [by rewrite Hperm|]. apply signal_for_Some.
    split; [exact Hgt|]. split.
    + by rewrite (window_high_count_Permutation _ _ _ _ Hperm).
    + symmetry. apply (signal_of_Permutation _ _ _ Hperm).
Qed.

Section SignalCount.

Implicit Types (rows : list Row) (row r : Row) (threshold : float64).

Lemma loc_mask_cons {A : Type} (b : bool) (mask : list bool) (x : A) (col : list A) :
  loc_mask (b :: mask) (x :: col)
  = if b then x :: loc_mask mask col else loc_mask mask col.
Proof.
  unfold loc_mask. cbn [zip zip_with]. rewrite filter_cons. cbn.
  destruct b; [by rewrite decide_True|by rewrite decide_False].
Qed.

Lemma loc_mask_nil_l {A : Type} (col : list A) : loc_mask [] col = [].
Proof. reflexivity. Qed.

Lemma loc_mask_nil_r {A : Type} (mask : list bool) : loc_mask mask (@nil A) = [].
Proof. by destruct mask. Qed.

(** Selecting the cells above the threshold with the mask is filtering. *)
Lemma loc_mask_self (xs : list float64) threshold :
  loc_mask (col_gt xs threshold) xs = filter (λ x, gt x threshold = true) xs.
Proof.
  unfold col_gt. induction xs as [|x xs IH]; [done|].
  rewrite fmap_cons, loc_mask_cons, filter_cons, IH.
  destruct (gt x threshold); [by rewrite decide_True|by rewrite decide_False].
Qed.

Lemma imap_rows_dly (vol : nat → option (float64 * float64)) (ds : list Z) :
  ∀ xs : list float64,
    row_Dly <$> imap (λ i '(d, x), mkRow d x (vol i)) (zip ds xs)
    = take (length ds) xs.
Proof.
  revert vol. induction ds as [|d ds IH]; intros vol xs; [done|].
  destruct xs as [|x xs]; [done|].
  cbn. f_equal. apply (IH (vol ∘ S)).
Qed.

Lemma iterrows_dly (df : DataFrame) :
  row_Dly <$> iterrows df = take (length (Date df)) (Dly_Qt_to_Traded_Qty df).
Proof. apply imap_rows_dly. Qed.

Lemma imap_rows_high_dates (vol : nat → option (float64 * float64)) threshold
    (ds : list Z) :
  ∀ xs : list float64,
    loc_mask (col_gt xs threshold) ds
    = row_Date <$> filter (λ r, gt (row_Dly r) threshold = true)
                     (imap (λ i '(d, x), mkRow d x (vol i)) (zip ds xs)).
Proof.
  revert vol. induction ds as [|d ds IH]; intros vol xs.
  - by rewrite loc_mask_nil_r.
  - destruct xs as [|x xs]; [done|].
    unfold col_gt. rewrite fmap_cons, loc_mask_cons.
    cbn [zip zip_with imap]. rewrite filter_cons. cbn [row_Dly].
    fold (col_gt xs threshold). rewrite (IH (vol ∘ S) xs).
    destruct (gt x threshold); [by rewrite decide_True|by rewrite decide_False].
Qed.

Lemma iterrows_high_dates (df : DataFrame) threshold :
  loc_mask (col_gt (Dly_Qt_to_Traded_Qty df) threshold) (Date df)
  = row_Date <$> filter (λ r, gt (row_Dly r) threshold = true) (iterrows df).
Proof. apply imap_rows_high_dates. Qed.

Lemma high_rows_length rows threshold :
  length (filter (λ x, gt x threshold = true) (row_Dly <$> rows))
  = length (filter (λ r, gt (row_Dly r) threshold = true) rows).
Proof.
  induction rows as [|r rows IH]; [done|].
  rewrite fmap_cons, !filter_cons.
  destruct (decide (gt (row_Dly r) threshold = true)); cbn; by rewrite IH.
Qed.

(** The caller's count of days above the threshold, read on the rows. *)
Lemma high_delivery_days_rows (df : DataFrame) threshold :
  length (Date df) = length (Dly_Qt_to_Traded_Qty df) →
  high_delivery_days df threshold
  = length (filter (λ r, gt (row_Dly r) threshold = true) (iterrows df)).
Proof.
  intros Hlen. unfold high_delivery_days. rewrite loc_mask_self.
  transitivity (length (filter (λ x, gt x threshold = true) (row_Dly <$> iterrows df))).
  - rewrite iterrows_dly, take_ge; [done|lia].
  - apply high_rows_length.
Qed.

Lemma omap_length_filter {A B : Type} (f : A → option B) (P : A → Prop)
    `{!∀ x, Decision (P x)} (l : list A) :
  (∀ x, is_Some (f x) → P x) → (length (omap f l) ≤ length (filter P l))%nat.
Proof.
  intros Hf. induction l as [|x l IH]; [done|].
  cbn [omap list_omap]. rewrite filter_cons. destruct (f x) as [y|] eqn:Hfx.
  - rewrite decide_True by (apply Hf; by rewrite Hfx). cbn. lia.
  - destruct (decide (P x)); cbn; lia.
Qed.

Lemma omap_filter_fmap {A B : Type} (f : A → option B) (g : A → B) (P : A → Prop)
    `{!∀ x, Decision (P x)} (l : list A) :
  (∀ x, x ∈ l → f x = if decide (P x) then Some (g x) else None) →
  omap f l = g <$> filter P l.
Proof.
  induction l as [|x l IH]; intros Hf; [done|].
  cbn [omap list_omap]. rewrite filter_cons, (Hf x) by apply list_elem_of_here.
  rewrite IH by (intros y Hy; apply Hf; by apply list_elem_of_further).
  by destruct (decide (P x)).
Qed.

(** When one row only is above the threshold, that row gives a signal. *)
Lemma signal_for_single_high rows threshold (r0 : Row) :
  filter (λ r, gt (row_Dly r) threshold = true) rows = [r0] →
  ∀ r, r ∈ rows →
    signal_for rows threshold r
    = if decide (gt (row_Dly r) threshold = true) then Some (signal_of rows r) else None.
Proof.
  intros Hone r Hin. case_decide as Hgt.
  - apply signal_for_Some. split; [exact Hgt|]. split; [|done].
    unfold window_high_count.
    assert (Hlow : (1 ≤ length (filter (λ r', in_lookback (row_Date r) r'
                                         ∧ gt (row_Dly r') threshold = true) rows))%nat).
    { apply (filter_length_pos _ rows r Hin). split; [unfold in_lookback; lia|done]. }
    assert (Hup : (length (filter (λ r', in_lookback (row_Date r) r'
                                         ∧ gt (row_Dly r') threshold = true) rows)
                   ≤ 1)%nat).
    { rewrite <- list_filter_filter, Hone. apply (length_filter _ [r0]). }
    lia.
  - destruct (signal_for rows threshold r) as [s|] eqn:Hs; [|done].
    apply signal_for_Some in Hs as (Hgt' & _). done.
Qed.

End SignalCount.

(** X3. There are never more signals than days above the threshold.  When
    exactly one day is above the threshold (the case in which
    [historical_analysis] announces a first crossing), there is exactly one
    signal, it is dated on the crossing date the caller looks up, and its
    delivery percentage is above the threshold. *)
Theorem signals_and_high_delivery_days (df : DataFrame) (threshold : float64) :
  length (Date df) = length (Dly_Qt_to_Traded_Qty df) →
  (length (analyze_delivery_signals df threshold) ≤ high_delivery_days df threshold)%nat ∧
  (high_delivery_days df threshold = 1%nat →
     ∃ s : Signal,
       analyze_delivery_signals df threshold = [s] ∧
       cross_date df threshold = Some (signal_Date s) ∧
       gt (signal_Delivery s) threshold = true).
Proof.
  intros Hlen.
  pose proof (sort_values_perm (iterrows df)) as Hperm.
  pose proof (high_delivery_days_rows df threshold Hlen) as Hdays.
  assert (Hsorted :
    filter (λ r, gt (row_Dly r) threshold = true) (sort_values (iterrows df))
    ≡ₚ filter (λ r, gt (row_Dly r) threshold = true) (iterrows df))
    by by rewrite Hperm.
  split.
  - rewrite Hdays, <- (Permutation_length Hsorted).
    unfold analyze_delivery_signals. cbv zeta.
    apply omap_length_filter. intros r [s Hs].
    by apply signal_for_Some in Hs as (? & _).
  - intros Hone. rewrite Hdays in Hone.
    destruct (filter (λ r, gt (row_Dly r) threshold = true) (iterrows df))
      as [|r0 [|r1 rest]] eqn:Hhigh; try done.
    apply Permutation_singleton_r in Hsorted.
    exists (signal_of (sort_values (iterrows df)) r0).
    assert (Hr0 : gt (row_Dly r0) threshold = true).
    { assert (Hin : r0 ∈ filter (λ r, gt (row_Dly r) threshold = true) (iterrows df))
        by (rewrite Hhigh; apply list_elem_of_here).
      by apply list_elem_of_filter in Hin as [? _]. }
    split; [|split; [|exact Hr0]].
    + unfold analyze_delivery_signals. cbv zeta.
      rewrite (omap_filter_fmap _ (signal_of (sort_values (iterrows df)))
                 (λ r, gt (row_Dly r) threshold = true)).
      * by rewrite Hsorted.
      * exact (signal_for_single_high _ _ r0 Hsorted).
    + unfold cross_date. rewrite decide_True by (by rewrite Hdays).
      by rewrite iterrows_high_dates, Hhigh.
Qed.

Lemma signals_and_high_delivery_days_witness :
  let df := base_frame [10; 20; 30; 40] (of_Z <$> [70; 95; 60; 80]) None None None in
  length (Date df) = length (Dly_Qt_to_Traded_Qty df) ∧
  high_delivery_days df (of_Z 90) = 1%nat ∧
  ∃ s : Signal,
    analyze_delivery_signals df (of_Z 90) = [s] ∧
    cross_date df (of_Z 90) = Some (signal_Date s) ∧
    gt (signal_Delivery s) (of_Z 90) = true.
Proof.
  cbv zeta. split; [reflexivity|]. split; [reflexivity|].
  exact (proj2 (signals_and_high_delivery_days
                  (base_frame [10; 20; 30; 40] (of_Z <$> [70; 95; 60; 80]) None None None)
                  (of_Z 90) eq_refl) eq_refl).
Defined.

(** ** Pattern Detector: what a streak counter measures *)

Section Runs.

Implicit Types (flag : list bool).

(** Where a run starts.  With [c] the counter of row [i] and [b] its
    flag: a run that reaches back beyond the first row continues the
    streak carried in; a run that starts inside the column is preceded by
    a row with the other flag. *)
Lemma run_lengths_start flag :
  ∀ (p : option bool) (c0 : nat) (i : nat) (b : bool) (c : nat),
    flag !! i = Some b → run_lengths p c0 flag !! i = Some c →
    (1 ≤ c)%nat ∧
    ((i + 1 < c)%nat → c = (i + 1 + c0)%nat) ∧
    (c = (i + 1)%nat → p = Some b → c0 = 0%nat) ∧
    ((c ≤ i)%nat → flag !! (i - c)%nat = Some (negb b)).
Proof.
  induction flag as [|b0 flag IH]; intros p c0 i b c Hi Hc; [done|].
  destruct i as [|i].
  - cbn in Hi, Hc. simplify_eq. repeat split.
    + case_decide; lia.
    + intros Hlt. case_decide; lia.
    + intros Hc Hp. rewrite decide_True in Hc by done. lia.
    + intros Hle. case_decide; lia.
  - cbn in Hi, Hc.
    destruct (IH (Some b0) _ i b c Hi Hc) as (Hpos & Hlong & Hfull & Hprev).
    destruct (run_lengths_run flag (Some b0) _ i b c Hi Hc) as (_ & Hcarry & _).
    repeat split.
    + exact Hpos.
    + intros Hlt. specialize (Hlong ltac:(lia)).
      case_decide; lia.
    + intros Hc' Hp. specialize (Hlong ltac:(lia)).
      assert (Hb : Some b0 = Some b) by (apply Hcarry; lia).
      rewrite decide_True in Hlong by congruence. lia.
    + intros Hle. destruct (decide (c ≤ i)%nat) as [Hin|Hout].
      * replace (S i - c)%nat with (S (i - c)) by lia. cbn. by apply Hprev.
      * assert (Hc' : c = (i + 1)%nat) by lia.
        replace (S i - c)%nat with 0%nat by lia. cbn. f_equal.
        destruct (decide (b0 = b)) as [->|Hne]; [|by destruct b0, b].
        specialize (Hfull Hc' eq_refl). case_decide; lia.
Qed.

(** The counter of a row is the length of the longest run of equal
    flags that ends at that row. *)
Lemma streaks_exact flag (i : nat) (b : bool) (c : nat) :
  flag !! i = Some b → streaks flag !! i = Some c →
  (1 ≤ c ≤ i + 1)%nat ∧
  (∀ j : nat, (i + 1 - c ≤ j ≤ i)%nat → flag !! j = Some b) ∧
  ((c ≤ i)%nat → flag !! (i - c)%nat = Some (negb b)).
Proof.
  intros Hi Hc. destruct (streaks_run flag i b c Hi Hc) as [Hle Hrun].
  rewrite streaks_run_lengths in Hc.
  destruct (run_lengths_start flag None 0%nat i b c Hi Hc) as (Hpos & _ & _ & Hprev).
  split; [lia|]. split; [exact Hrun|exact Hprev].
Qed.

Lemma run_lengths_constant flag (b : bool) :
  Forall (λ b', b' = b) flag →
  ∀ c0 : nat, run_lengths (Some b) c0 flag = seq (S c0) (length flag).
Proof.
  induction 1 as [|b' flag -> _ IH]; intros c0; [done|].
  cbn. rewrite decide_True by done. by rewrite IH.
Qed.

(** A column whose flags are all equal is counted 1, 2, 3, ... *)
Lemma streaks_constant flag (b : bool) :
  Forall (λ b', b' = b) flag → streaks flag = seq 1 (length flag).
Proof.
  intros Hall. rewrite streaks_run_lengths.
  destruct Hall as [|b' flag Hb Hall]; [done|]. subst b'.
  cbn. by rewrite (run_lengths_constant flag b Hall).
Qed.

Lemma foldr_max_seq (n : nat) :
  ∀ a c : nat, (c ≤ a)%nat → foldr Nat.max c (seq a (S n)) = (a + n)%nat.
Proof.
  induction n as [|n IH]; intros a c Hc; [cbn; lia|].
  change (seq a (S (S n))) with (a :: seq (S a) (S n)).
  cbn [foldr]. rewrite (IH (S a) c) by lia. lia.
Qed.

Lemma col_max_seq (n : nat) : col_max (seq 1 (S n)) = Some (S n).
Proof.
  destruct n as [|n]; [done|].
  change (seq 1 (S (S n))) with (1%nat :: seq 2 (S n)).
  cbn [col_max]. rewrite foldr_max_seq by lia. f_equal.
Qed.

End Runs.

(** X4. A streak counter is exact: for every row, [Consecutive_Days] is
    the length of the longest run of rows with the same [High_Delivery]
    flag that ends at the row: the rows it counts all carry the row's flag,
    and the row before them, when there is one, carries the other flag.
    [Consecutive_Increases] measures the runs of [Increasing_Delivery] in
    the same way.  The counter counts the runs of days that are not above
    the threshold just as those that are. *)
Theorem detect_delivery_patterns_exact_runs (df : DataFrame) (threshold : float64) :
  ∃ p : PatternColumns,
    pattern_columns (detect_delivery_patterns df threshold) = Some p ∧
    (∀ (i : nat) (b : bool) (c : nat),
       High_Delivery p !! i = Some b → Consecutive_Days p !! i = Some c →
       (1 ≤ c ≤ i + 1)%nat ∧
       (∀ j : nat, (i + 1 - c ≤ j ≤ i)%nat → High_Delivery p !! j = Some b) ∧
       ((c ≤ i)%nat → High_Delivery p !! (i - c)%nat = Some (negb b))) ∧
    (∀ (i : nat) (b : bool) (c : nat),
       Increasing_Delivery p !! i = Some b → Consecutive_Increases p !! i = Some c →
       (1 ≤ c ≤ i + 1)%nat ∧
       (∀ j : nat, (i + 1 - c ≤ j ≤ i)%nat → Increasing_Delivery p !! j = Some b) ∧
       ((c ≤ i)%nat → Increasing_Delivery p !! (i - c)%nat = Some (negb b))).
Proof.
  eexists. split; [reflexivity|].
  cbn [High_Delivery Consecutive_Days Increasing_Delivery Consecutive_Increases].
  split; intros i b c; apply streaks_exact.
Qed.

Example exact_runs_example :
  let df := base_frame [1; 2; 3; 4; 5; 6] (of_Z <$> [95; 60; 50; 40; 96; 97]) None None None in
  pattern_columns (detect_delivery_patterns df (of_Z 90)) =
  Some (mkPattern [true; false; false; false; true; true] [1; 1; 2; 3; 1; 2]%nat
          [NaN; Fin (-35); Fin (-10); Fin (-10); Fin 56; Fin 1]
          [false; false; false; false; true; true] [1; 2; 3; 4; 1; 2]%nat).
Proof. vm_compute. reflexivity. Qed.

(** ** [historical_analysis] *)

Section Pipeline.

Implicit Types (df : DataFrame) (threshold : float64).

Lemma add_volume_analysis_inputs df :
  Date (add_volume_analysis df) = Date df ∧
  Dly_Qt_to_Traded_Qty (add_volume_analysis df) = Dly_Qt_to_Traded_Qty df ∧
  Close (add_volume_analysis df) = Close df ∧
  pattern_columns (add_volume_analysis df) = pattern_columns df.
Proof.
  unfold add_volume_analysis.
  by destruct (Total_Traded_Quantity df), (Deliverable_Qty df).
Qed.

(** What the caller computes, in terms of the frame it was given: the
    pattern and price analyses leave the signals alone. *)
Lemma historical_analysis_results (has_Traded_Qty : bool) df threshold :
  let out := historical_analysis has_Traded_Qty df threshold in
  let df' := if has_Traded_Qty then add_volume_analysis df else df in
  analysis_signals out = analyze_delivery_signals df' threshold ∧
  volume_columns (analysed_frame out) = volume_columns df' ∧
  analysis_high_delivery_days out = high_delivery_days df threshold ∧
  analysis_cross_date out = cross_date df threshold ∧
  analysis_max_consecutive out
    = col_max (streaks (col_gt (Dly_Qt_to_Traded_Qty df) threshold)) ∧
  analysis_max_increases out
    = col_max (streaks (col_gt (diff (Dly_Qt_to_Traded_Qty df)) (Fin 0))).
Proof.
  cbv zeta. unfold historical_analysis.
  set (df' := if has_Traded_Qty then add_volume_analysis df else df).
  assert (Hin : Date df' = Date df ∧
                Dly_Qt_to_Traded_Qty df' = Dly_Qt_to_Traded_Qty df ∧
                Close df' = Close df).
  { unfold df'. destruct has_Traded_Qty; [|done].
    destruct (add_volume_analysis_inputs df) as (? & ? & ? & _). done. }
  destruct Hin as (Hdate & Hdly & Hclose).
  clearbody df'. destruct df' as [dates dly tq dq close vol pat price].
  cbn in Hdate, Hdly, Hclose. subst dates dly.
  unfold high_delivery_days, cross_date, high_delivery_days.
  destruct close as [close|]; repeat split; reflexivity.
Qed.

Lemma analyze_delivery_signals_volume df threshold (s : Signal) :
  s ∈ analyze_delivery_signals df threshold →
  is_Some (signal_Volume s) ↔ is_Some (volume_columns df).
Proof.
  unfold analyze_delivery_signals. cbv zeta. intros Hs.
  apply list_elem_of_omap in Hs as (row & Hin & Hsig).
  apply signal_for_Some in Hsig as (_ & _ & ->). cbn [signal_Volume].
  rewrite sort_values_perm in Hin.
  apply list_elem_of_lookup_1 in Hin as [i Hi].
  destruct (iterrows_lookup df i row Hi) as (_ & _ & ->).
  destruct (volume_columns df); cbn; split; intros [? ?]; done.
Qed.

End Pipeline.

(** X5. In [historical_analysis] the signals carry the two volume cells
    exactly when the file has a column named ['Traded Qty'] and, besides,
    the two columns the Volume Analyzer needs.  A file with the two
    quantity columns but no ['Traded Qty'] column gets no volume columns,
    and its signals no volume cells.  The signals are those of the Signal
    Detector on the frame before the pattern and price analyses. *)
Theorem historical_analysis_volume_cells (has_Traded_Qty : bool) (df : DataFrame)
    (threshold : float64) :
  volume_columns df = None →
  let out := historical_analysis has_Traded_Qty df threshold in
  let applies :=
    has_Traded_Qty = true ∧
    is_Some (Total_Traded_Quantity df) ∧ is_Some (Deliverable_Qty df) in
  analysis_signals out
    = analyze_delivery_signals
        (if has_Traded_Qty then add_volume_analysis df else df) threshold ∧
  (is_Some (volume_columns (analysed_frame out)) ↔ applies) ∧
  (∀ s : Signal, s ∈ analysis_signals out → is_Some (signal_Volume s) ↔ applies).
Proof.
  intros Hnone. cbv zeta.
  destruct (historical_analysis_results has_Traded_Qty df threshold)
    as (Hsig & Hvol & _).
  cbv zeta in Hsig, Hvol.
  assert (Happ : is_Some (volume_columns
                            (if has_Traded_Qty then add_volume_analysis df else df)) ↔
                 has_Traded_Qty = true ∧
                 is_Some (Total_Traded_Quantity df) ∧ is_Some (Deliverable_Qty df)).
  { destruct has_Traded_Qty.
    - unfold add_volume_analysis.
      destruct (Total_Traded_Quantity df), (Deliverable_Qty df); cbn;
        rewrite ?Hnone; split; intros H; try done;
        try (destruct H as (_ & [? ?] & [? ?]); done);
        try (by destruct H as [? ?]).
    - rewrite Hnone. split; [by intros [? ?]|by intros [? _]]. }
  split; [exact Hsig|]. split.
  - by rewrite Hvol.
  - intros s Hs. rewrite Hsig in Hs.
    by rewrite (analyze_delivery_signals_volume _ _ _ Hs).
Qed.

Lemma historical_analysis_volume_cells_witness :
  let df := base_frame [1; 2; 3] (of_Z <$> [70; 95; 60])
              (Some [10; 20; 30]) (Some [5; 10; 15]) None in
  volume_columns df = None ∧
  analysis_signals (historical_analysis false df (of_Z 90))
    = [mkSignal 2 (of_Z 95) (Fin (165 # 2)) None] ∧
  analysis_signals (historical_analysis true df (of_Z 90))
    = [mkSignal 2 (of_Z 95) (Fin (165 # 2)) (Some (Fin 1, Fin 50))] ∧
  ∀ s : Signal,
    s ∈ analysis_signals (historical_analysis false df (of_Z 90)) →
    is_Some (signal_Volume s) ↔
    false = true ∧ is_Some (Some [10; 20; 30]) ∧ is_Some (Some [5; 10; 15]).
Proof.
  cbv zeta. split; [reflexivity|]. split; [vm_compute; reflexivity|].
  split; [vm_compute; reflexivity|].
  exact (proj2 (proj2 (historical_analysis_volume_cells false
    (base_frame [1; 2; 3] (of_Z <$> [70; 95; 60])
       (Some [10; 20; 30]) (Some [5; 10; 15]) None) (of_Z 90) eq_refl))).
Defined.

Section NoHighDay.

Implicit Types (df : DataFrame) (threshold : float64).

Lemma omap_all_None {A B : Type} (f : A → option B) (l : list A) :
  (∀ x, x ∈ l → f x = None) → omap f l = [].
Proof.
  induction l as [|x l IH]; intros Hf; [done|].
  cbn [omap list_omap]. rewrite (Hf x) by apply list_elem_of_here.
  apply IH. intros y Hy. apply Hf. by apply list_elem_of_further.
Qed.

Lemma iterrows_dly_elem df (r : Row) :
  r ∈ iterrows df → row_Dly r ∈ Dly_Qt_to_Traded_Qty df.
Proof.
  intros Hin. apply list_elem_of_lookup_1 in Hin as [i Hi].
  destruct (iterrows_lookup df i r Hi) as (_ & Hx & _).
  by eapply list_elem_of_lookup_2.
Qed.

Lemma analyze_delivery_signals_no_high df threshold :
  Forall (λ x, gt x threshold = false) (Dly_Qt_to_Traded_Qty df) →
  analyze_delivery_signals df threshold = [].
Proof.
  intros Hall. unfold analyze_delivery_signals. cbv zeta.
  apply omap_all_None. intros r Hin. rewrite sort_values_perm in Hin.
  apply iterrows_dly_elem in Hin. rewrite Forall_forall in Hall.
  unfold signal_for. by rewrite (Hall _ Hin).
Qed.

Lemma col_gt_all_false (xs : list float64) threshold :
  Forall (λ x, gt x threshold = false) xs →
  Forall (λ b, b = false) (col_gt xs threshold).
Proof. unfold col_gt. intros Hall. by apply Forall_fmap. Qed.

Lemma filter_high_all_false (xs : list float64) threshold :
  Forall (λ x, gt x threshold = false) xs →
  filter (λ x, gt x threshold = true) xs = [].
Proof.
  induction 1 as [|x xs Hx _ IH]; [done|].
  rewrite filter_cons_False; [exact IH|]. by rewrite Hx.
Qed.

End NoHighDay.

(** X6. When no day of the series is above the threshold,
    [historical_analysis] finds no day above it and no signal, and
    [Consecutive_Days] counts the rows 1, 2, 3, ...: its maximum, which
    the caller reports as the maximum of consecutive days above the
    threshold, is the number of rows of the series. *)
Theorem historical_analysis_without_high_day (has_Traded_Qty : bool) (df : DataFrame)
    (threshold : float64) :
  Dly_Qt_to_Traded_Qty df ≠ [] →
  Forall (λ x, gt x threshold = false) (Dly_Qt_to_Traded_Qty df) →
  let out := historical_analysis has_Traded_Qty df threshold in
  analysis_high_delivery_days out = 0%nat ∧
  analysis_cross_date out = None ∧
  analysis_signals out = [] ∧
  (∃ p : PatternColumns,
     pattern_columns (detect_delivery_patterns df threshold) = Some p ∧
     Consecutive_Days p = seq 1 (length (Dly_Qt_to_Traded_Qty df))) ∧
  analysis_max_consecutive out = Some (length (Dly_Qt_to_Traded_Qty df)).
Proof.
  intros Hne Hall. cbv zeta.
  destruct (historical_analysis_results has_Traded_Qty df threshold)
    as (Hsig & _ & Hdays & Hcross & Hmax & _).
  cbv zeta in Hsig.
  assert (Hzero : high_delivery_days df threshold = 0%nat).
  { unfold high_delivery_days. by rewrite loc_mask_self, filter_high_all_false. }
  assert (Hstreaks : streaks (col_gt (Dly_Qt_to_Traded_Qty df) threshold)
                     = seq 1 (length (Dly_Qt_to_Traded_Qty df))).
  { rewrite (streaks_constant _ false) by by apply col_gt_all_false.
    unfold col_gt. by rewrite length_fmap. }
  split; [by rewrite Hdays|]. split.
  - rewrite Hcross. unfold cross_date. rewrite Hzero. by rewrite decide_False.
  - split.
    + rewrite Hsig. apply analyze_delivery_signals_no_high.
      destruct has_Traded_Qty; [|done].
      by destruct (add_volume_analysis_inputs df) as (_ & -> & _).
    + split; [eexists; split; [reflexivity|exact Hstreaks]|].
      rewrite Hmax, Hstreaks.
      destruct (Dly_Qt_to_Traded_Qty df) as [|x xs]; [done|].
      apply col_max_seq.
Qed.

Lemma historical_analysis_without_high_day_witness :
  let df := base_frame [1; 2; 3; 4] (of_Z <$> [70; 50; 60; 80]) None None None in
  Dly_Qt_to_Traded_Qty df ≠ [] ∧
  Forall (λ x, gt x (of_Z 90) = false) (Dly_Qt_to_Traded_Qty df) ∧
  analysis_signals (historical_analysis false df (of_Z 90)) = [] ∧
  analysis_max_consecutive (historical_analysis false df (of_Z 90)) = Some 4%nat.
Proof.
  cbv zeta.
  assert (Hne : of_Z <$> [70; 50; 60; 80] ≠ []) by discriminate.
  assert (Hall : Forall (λ x, gt x (of_Z 90) = false) (of_Z <$> [70; 50; 60; 80]))
    by (repeat constructor).
  split; [exact Hne|]. split; [exact Hall|].
  destruct (historical_analysis_without_high_day false
              (base_frame [1; 2; 3; 4] (of_Z <$> [70; 50; 60; 80]) None None None)
              (of_Z 90) Hne Hall) as (_ & _ & Hsig & _ & Hmax).
  split; [exact Hsig|exact Hmax].
Defined.

(** ** Volume Analyzer: shape of the result, cells that are undefined *)

Section VolumeFacts.

Implicit Types (l traded deliverable : list Z).

Lemma rolling_mean_length (window min_periods : nat) (s : list float64) :
  length (rolling_mean window min_periods s) = length s.
Proof. unfold rolling_mean. apply length_imap. Qed.

Lemma Qsgn_Qred (q : Q) : Qsgn (Qred q) = Qsgn q.
Proof. unfold Qsgn. by rewrite Qred_correct. Qed.

Lemma Qsgn_Gt (q : Q) : Qsgn q = Gt ↔ (0 < q)%Q.
Proof. unfold Qsgn. symmetry. apply Qgt_alt. Qed.

Lemma Qsgn_Eq (q : Q) : Qsgn q = Eq ↔ (q == 0)%Q.
Proof. unfold Qsgn. symmetry. apply Qeq_alt. Qed.

Lemma Zsum_nonneg l : Forall (λ t, 0 ≤ t) l → 0 ≤ Zsum l.
Proof. induction 1 as [|t l Ht _ IH]; [done|]. rewrite Zsum_cons. lia. Qed.

Lemma Zsum_zero l : Forall (λ t, 0 ≤ t) l → Zsum l = 0 → Forall (λ t, t = 0) l.
Proof.
  induction 1 as [|t l Ht Hl IH]; intros Hsum; [constructor|].
  rewrite Zsum_cons in Hsum. pose proof (Zsum_nonneg l Hl).
  constructor; [lia|]. apply IH. lia.
Qed.

Lemma inject_Z_pos (z : Z) : 0 < z → (0 < inject_Z z)%Q.
Proof. intros Hz. change 0%Q with (inject_Z 0). by rewrite <- Zlt_Qlt. Qed.

Lemma inject_Z_nonneg (z : Z) : 0 ≤ z → (0 <= inject_Z z)%Q.
Proof. intros Hz. change 0%Q with (inject_Z 0). by rewrite <- Zle_Qle. Qed.

(** The mean of non-negative quantities that are not all zero is a
    positive number. *)
Lemma mean_of_Z_positive l :
  0 < Zsum l → ∃ m : Q, mean (of_Z <$> l) = Fin m ∧ (0 < m)%Q.
Proof.
  intros Hsum. assert (Hne : l ≠ []) by (intros ->; cbn in Hsum; lia).
  rewrite (mean_of_Z l Hne). eexists. split; [reflexivity|].
  rewrite Qred_correct. apply Qmult_lt_0_compat; [by apply inject_Z_pos|].
  apply Qinv_lt_0_compat, inject_Z_pos. destruct l; [done|cbn; lia].
Qed.

Lemma mean_of_Z_zero l :
  l ≠ [] → Zsum l = 0 → mean (of_Z <$> l) = Fin 0.
Proof.
  intros Hne Hsum. rewrite (mean_of_Z l Hne), Hsum. reflexivity.
Qed.

Lemma div_nonneg_positive (t : Z) (m : Q) :
  0 ≤ t → (0 < m)%Q → ∃ q : Q, div (of_Z t) (Fin m) = Fin q ∧ (0 <= q)%Q.
Proof.
  intros Ht Hm. unfold div, of_Z.
  rewrite (proj2 (Qsgn_Gt m) Hm). eexists. split; [reflexivity|].
  rewrite Qred_correct. apply Qmult_le_0_compat; [by apply inject_Z_nonneg|].
  apply Qinv_le_0_compat. by apply Qlt_le_weak.
Qed.

Lemma div_self (t : Z) : t ≠ 0 → div (of_Z t) (of_Z t) = Fin 1.
Proof.
  intros Ht. unfold div, of_Z.
  assert (Hnz : ¬ (inject_Z t == 0)%Q).
  { unfold Qeq. cbn. lia. }
  assert (Hone : Qred (inject_Z t / inject_Z t) = 1%Q).
  { change 1%Q with (Qred 1). apply Qred_complete. by field. }
  destruct (Qsgn (inject_Z t)) eqn:Hs; [|by rewrite Hone..].
  by apply Qsgn_Eq in Hs.
Qed.

Lemma rolling_mean_first (window : nat) (t : Z) l :
  (0 < window)%nat →
  rolling_mean window 1 (of_Z <$> (t :: l)) !! 0%nat = Some (of_Z t).
Proof.
  intros Hw. rewrite (rolling_mean_of_Z window (t :: l) 0) by (cbn; lia || done).
  replace (1 `min` window)%nat with 1%nat by lia.
  unfold last_rows. cbn [drop take Zsum foldr Nat.sub].
  unfold of_Z. do 2 f_equal. rewrite <- (Qred_inject_Z t).
  apply Qred_complete. rewrite Z.add_0_r. unfold Qdiv.
  change (/ inject_Z (Z.of_nat 1))%Q with 1%Q. ring.
Qed.

End VolumeFacts.

(** X7. The Volume Analyzer changes nothing when one of the two quantity
    columns is missing.  When both are there (with one cell per row), it
    keeps the columns of the frame as they are and adds its five columns
    with one cell per row each. *)
Theorem add_volume_analysis_shape (df : DataFrame) :
  ((Total_Traded_Quantity df = None ∨ Deliverable_Qty df = None) →
     add_volume_analysis df = df) ∧
  (∀ traded deliverable : list Z,
     Total_Traded_Quantity df = Some traded →
     Deliverable_Qty df = Some deliverable →
     length traded = length (Date df) →
     length deliverable = length (Date df) →
     ∃ v : VolumeColumns,
       add_volume_analysis df
       = mkDF (Date df) (Dly_Qt_to_Traded_Qty df) (Some traded) (Some deliverable)
              (Close df) (Some v) (pattern_columns df) (price_columns df) ∧
       length (Volume_3M_Avg v) = length (Date df) ∧
       length (Volume_Ratio v) = length (Date df) ∧
       length (Delivery_to_Traded v) = length (Date df) ∧
       length (Avg_Volume v) = length (Date df) ∧
       length (Volume_Multiple v) = length (Date df)).
Proof.
  split.
  - unfold add_volume_analysis. intros [-> | ->]; [done|].
    by destruct (Total_Traded_Quantity df).
  - intros traded deliverable Ht Hd Hlt Hld. unfold add_volume_analysis.
    rewrite Ht, Hd. eexists. split; [reflexivity|].
    cbn [Volume_3M_Avg Volume_Ratio Delivery_to_Traded Avg_Volume Volume_Multiple].
    unfold col_mul_scalar, col_div.
    rewrite !length_fmap, !length_zip_with, !length_fmap, rolling_mean_length,
      length_replicate, !length_fmap.
    repeat split; lia.
Qed.

Lemma add_volume_analysis_shape_witness :
  let df := base_frame [1; 2; 3] (of_Z <$> [70; 95; 60]) (Some [10; 20; 30]) None None in
  (Total_Traded_Quantity df = None ∨ Deliverable_Qty df = None) ∧
  add_volume_analysis df = df.
Proof.
  cbv zeta. split; [by right|].
  exact (proj1 (add_volume_analysis_shape
                  (base_frame [1; 2; 3] (of_Z <$> [70; 95; 60]) (Some [10; 20; 30]) None None))
               (or_intror eq_refl)).
Defined.

(** X8. With non-negative traded quantities the division by the series
    average never gives an infinity: if nothing was traded on any day,
    every [Volume_Multiple] is NaN; otherwise every [Volume_Multiple] is a
    finite non-negative number.  [Volume_Ratio] of the first row is 1, or
    NaN when the first day's traded quantity is 0. *)
Theorem add_volume_analysis_division (df : DataFrame) (traded deliverable : list Z) :
  Total_Traded_Quantity df = Some traded →
  Deliverable_Qty df = Some deliverable →
  length traded = length (Date df) →
  Forall (λ t, 0 ≤ t) traded →
  ∃ v : VolumeColumns,
    volume_columns (add_volume_analysis df) = Some v ∧
    (Zsum traded = 0 → Forall (λ x, x = NaN) (Volume_Multiple v)) ∧
    (0 < Zsum traded →
       Forall (λ x, ∃ q : Q, x = Fin q ∧ (0 <= q)%Q) (Volume_Multiple v)) ∧
    (∀ t : Z, traded !! 0%nat = Some t →
       Volume_Ratio v !! 0%nat = Some (if decide (t = 0) then NaN else Fin 1)).
Proof.
  intros Ht Hd Hlen Hnn. unfold add_volume_analysis. rewrite Ht, Hd.
  eexists. split; [reflexivity|]. cbn [Volume_Multiple Volume_Ratio].
  rewrite <- Hlen. unfold col_div. split; [|split].
  - intros Hsum. apply Forall_lookup_2. intros i x Hx.
    apply lookup_zip_with_Some in Hx as (a & m & -> & Ha & Hm).
    apply lookup_replicate in Hm as [-> Hi].
    rewrite list_lookup_fmap in Ha.
    destruct (traded !! i) as [t|] eqn:Hti; [|done]. cbn in Ha. simplify_eq.
    pose proof (Zsum_zero traded Hnn Hsum) as Hzero.
    rewrite Forall_lookup in Hzero. rewrite (Hzero i t Hti).
    rewrite mean_of_Z_zero; [done| |exact Hsum].
    intros ->. done.
  - intros Hsum. destruct (mean_of_Z_positive traded Hsum) as (m & Hm & Hpos).
    rewrite Hm. apply Forall_lookup_2. intros i x Hx.
    apply lookup_zip_with_Some in Hx as (a & m' & -> & Ha & Hm').
    apply lookup_replicate in Hm' as [-> Hi].
    rewrite list_lookup_fmap in Ha.
    destruct (traded !! i) as [t|] eqn:Hti; [|done]. cbn in Ha. simplify_eq.
    apply div_nonneg_positive; [|exact Hpos].
    rewrite Forall_lookup in Hnn. by apply (Hnn i).
  - intros t Hti. destruct traded as [|t' traded']; [done|].
    cbn in Hti. simplify_eq.
    rewrite lookup_zip_with, rolling_mean_first by lia.
    change ((of_Z <$> t :: traded') !! 0%nat) with (Some (of_Z t)).
    cbn [mbind option_bind]. case_decide as Hz.
    + by subst t.
    + by rewrite div_self.
Qed.

Lemma add_volume_analysis_division_witness :
  let df := base_frame [1; 2; 3] (of_Z <$> [70; 95; 60])
              (Some [0; 20; 40]) (Some [0; 10; 15]) None in
  ∃ v : VolumeColumns,
    volume_columns (add_volume_analysis df) = Some v ∧
    Volume_Multiple v = [Fin 0; Fin 1; Fin 2] ∧
    Volume_Ratio v !! 0%nat = Some NaN.
Proof.
  cbv zeta.
  destruct (add_volume_analysis_division
              (base_frame [1; 2; 3] (of_Z <$> [70; 95; 60])
                 (Some [0; 20; 40]) (Some [0; 10; 15]) None)
              [0; 20; 40] [0; 10; 15] eq_refl eq_refl eq_refl
              ltac:(repeat constructor; lia))
    as (v & Hv & _ & _ & Hratio).
  exists v. split; [exact Hv|]. split.
  - cbn in Hv. injection Hv as <-. vm_compute. reflexivity.
  - exact (Hratio 0 eq_refl).
Defined.

(** ** Price Correlation Analyzer: range of the rate, short series *)

Section PriceFacts.

Lemma shift_length {A : Type} (n : nat) (s : list A) : length (shift n s) = length s.
Proof.
  unfold shift. rewrite length_take, length_app, length_replicate, length_fmap. lia.
Qed.

Lemma pct_change_length (periods : nat) (close : list Q) :
  length (pct_change periods close) = length close.
Proof. unfold pct_change. rewrite length_zip_with, shift_length. lia. Qed.

Lemma loc_mask_length {A B : Type} (mask : list bool) :
  ∀ (col : list A) (col' : list B),
    length col = length col' →
    length (loc_mask mask col) = length (loc_mask mask col').
Proof.
  induction mask as [|b mask IH]; intros col col' Hlen; [done|].
  destruct col as [|x col], col' as [|x' col']; try done.
  rewrite !loc_mask_cons. cbn in Hlen.
  destruct b; cbn; rewrite (IH col col'); lia.
Qed.

Lemma loc_mask_elem {A : Type} (mask : list bool) :
  ∀ (col : list A) (x : A), x ∈ loc_mask mask col → x ∈ col.
Proof.
  induction mask as [|b mask IH]; intros col x Hx.
  - by apply not_elem_of_nil in Hx.
  - destruct col as [|y col]; [by rewrite loc_mask_nil_r in Hx|].
    rewrite loc_mask_cons in Hx. destruct b.
    + apply elem_of_cons in Hx as [->|Hx]; [apply list_elem_of_here|].
      apply list_elem_of_further. by apply IH.
    + apply list_elem_of_further. by apply IH.
Qed.

Lemma pct_change_all_nan (periods : nat) (close : list Q) :
  (length close ≤ periods)%nat →
  Forall (λ x, isna x = true) (pct_change periods close).
Proof.
  intros Hlen. apply Forall_lookup_2. intros i x Hx.
  assert (Hi : (i < length close)%nat).
  { rewrite <- (pct_change_length periods). by eapply lookup_lt_Some. }
  rewrite pct_change_early in Hx by lia. by simplify_eq.
Qed.

Lemma fraction_range (c n : nat) :
  (c ≤ n)%nat → (0 < n)%nat →
  (0 <= Qred (inject_Z (Z.of_nat c) / inject_Z (Z.of_nat n)))%Q ∧
  (Qred (inject_Z (Z.of_nat c) / inject_Z (Z.of_nat n)) <= 1)%Q.
Proof.
  intros Hc Hn. rewrite Qred_correct.
  assert (Hpos : (0 < inject_Z (Z.of_nat n))%Q) by (apply inject_Z_pos; lia).
  split.
  - apply Qmult_le_0_compat; [apply inject_Z_nonneg; lia|].
    apply Qinv_le_0_compat. by apply Qlt_le_weak.
  - apply Qle_shift_div_r; [exact Hpos|]. rewrite Qmult_1_l.
    rewrite <- Zle_Qle. lia.
Qed.

End PriceFacts.

(** X9. [success_rate] is a fraction: it is NaN exactly when no day is
    above the threshold, and otherwise a number between 0 and 1. *)
Theorem analyze_price_correlation_rate_range (df : DataFrame) (threshold : float64)
    (close : list Q) :
  Close df = Some close →
  length close = length (Dly_Qt_to_Traded_Qty df) →
  ∃ a : PriceAnalysis,
    (analyze_price_correlation df threshold).2 = Some a ∧
    (success_rate a = NaN ↔ high_delivery_days df threshold = 0%nat) ∧
    (high_delivery_days df threshold ≠ 0%nat →
       ∃ q : Q, success_rate a = Fin q ∧ (0 <= q)%Q ∧ (q <= 1)%Q).
Proof.
  intros Hclose Hlen. unfold analyze_price_correlation. rewrite Hclose.
  eexists. split; [reflexivity|]. cbn [success_rate].
  set (selected := loc_mask (col_gt (Dly_Qt_to_Traded_Qty df) threshold)
                            (pct_change 5 close)).
  assert (Hdays : high_delivery_days df threshold = length selected).
  { unfold high_delivery_days, selected. apply loc_mask_length.
    by rewrite pct_change_length. }
  rewrite Hdays. destruct selected as [|x selected'] eqn:Hsel.
  - split; [done|]. intros Hne. done.
  - rewrite mean_bool_fraction by done. split; [done|]. intros _.
    eexists. split; [reflexivity|].
    apply fraction_range; [apply length_filter|cbn; lia].
Qed.

Lemma analyze_price_correlation_rate_range_witness :
  let df := base_frame [1; 2; 3; 4; 5; 6; 7] (of_Z <$> [70; 95; 60; 50; 40; 96; 97])
              None None (Some [100; 101; 102; 103; 104; 110; 100]%Q) in
  length [100; 101; 102; 103; 104; 110; 100]%Q = length (Dly_Qt_to_Traded_Qty df) ∧
  high_delivery_days df (of_Z 90) = 3%nat ∧
  ∃ a : PriceAnalysis,
    (analyze_price_correlation df (of_Z 90)).2 = Some a ∧
    ∃ q : Q, success_rate a = Fin q ∧ (0 <= q)%Q ∧ (q <= 1)%Q.
Proof.
  cbv zeta.
  assert (Hlen : length [100; 101; 102; 103; 104; 110; 100]%Q
                 = length (Dly_Qt_to_Traded_Qty
                     (base_frame [1; 2; 3; 4; 5; 6; 7]
                        (of_Z <$> [70; 95; 60; 50; 40; 96; 97])
                        None None (Some [100; 101; 102; 103; 104; 110; 100]%Q))))
    by (vm_compute; reflexivity).
  split; [exact Hlen|]. split; [vm_compute; reflexivity|].
  destruct (analyze_price_correlation_rate_range
              (base_frame [1; 2; 3; 4; 5; 6; 7] (of_Z <$> [70; 95; 60; 50; 40; 96; 97])
                 None None (Some [100; 101; 102; 103; 104; 110; 100]%Q))
              (of_Z 90) [100; 101; 102; 103; 104; 110; 100]%Q eq_refl Hlen)
    as (a & Ha & _ & Hrange).
  exists a. split; [exact Ha|]. apply Hrange. vm_compute. discriminate.
Defined.

(** X10. With at most five rows no 5-row price change exists: whatever
    the prices and the threshold, [correlation] is NaN, and [success_rate]
    is NaN (no day above the threshold) or 0. *)
Theorem analyze_price_correlation_short_series (df : DataFrame) (threshold : float64)
    (close : list Q) :
  Close df = Some close →
  (length close ≤ 5)%nat →
  ∃ a : PriceAnalysis,
    (analyze_price_correlation df threshold).2 = Some a ∧
    correlation a = NaN ∧
    (success_rate a = NaN ∨ success_rate a = Fin 0).
Proof.
  intros Hclose Hlen. unfold analyze_price_correlation. rewrite Hclose.
  eexists. split; [reflexivity|]. cbn [correlation success_rate].
  set (selected := loc_mask (col_gt (Dly_Qt_to_Traded_Qty df) threshold)
                            (pct_change 5 close)).
  assert (Hall : Forall (λ x, isna x = true) selected).
  { apply Forall_forall. intros x Hx. apply loc_mask_elem in Hx.
    pose proof (pct_change_all_nan 5 close Hlen) as Hnan.
    rewrite Forall_forall in Hnan. by apply Hnan. }
  split; [by apply mean_all_nan|].
  destruct selected as [|x selected'] eqn:Hsel; [by left|right].
  rewrite mean_bool_fraction by done.
  by rewrite filter_gt_all_nan.
Qed.

Lemma analyze_price_correlation_short_series_witness :
  let df := base_frame [1; 2; 3; 4; 5] (of_Z <$> [95; 96; 97; 98; 99])
              None None (Some [100; 90; 120; 130; 150]%Q) in
  (length [100; 90; 120; 130; 150]%Q ≤ 5)%nat ∧
  ∃ a : PriceAnalysis,
    (analyze_price_correlation df (of_Z 90)).2 = Some a ∧
    correlation a = NaN ∧
    (success_rate a = NaN ∨ success_rate a = Fin 0).
Proof.
  cbv zeta. split; [cbn; lia|].
  exact (analyze_price_correlation_short_series
           (base_frame [1; 2; 3; 4; 5] (of_Z <$> [95; 96; 97; 98; 99])
              None None (Some [100; 90; 120; 130; 150]%Q))
           (of_Z 90) [100; 90; 120; 130; 150]%Q eq_refl ltac:(cbn; lia)).
Defined.

(** ** Daily Snapshot Filter: the error, the date, the groups *)

Section SnapshotFacts.

Variable number_of_text : string → option float64.

Implicit Types (file : list SnapshotRow) (rows : list NumericRow).

(** What is left after the series filter starts with the first row of
    the file that is not dropped. *)
Lemma series_filter_head file :
  match filter (λ r, str_match_anchored unwanted_series (num_SERIES r) = false)
               (clean_row number_of_text <$> file) with
  | [] => Forall (λ r, excluded (clean_row number_of_text r)) file
  | first :: _ =>
      ∃ (pre : list SnapshotRow) (r : SnapshotRow) (post : list SnapshotRow),
        file = pre ++ r :: post ∧
        Forall (λ r', excluded (clean_row number_of_text r')) pre ∧
        ¬ excluded (clean_row number_of_text r) ∧
        first = clean_row number_of_text r
  end.
Proof.
  unfold excluded. induction file as [|r file IH]; [constructor|].
  rewrite fmap_cons, filter_cons.
  destruct (decide (str_match_anchored unwanted_series
                      (num_SERIES (clean_row number_of_text r)) = false)) as [Hkeep|Hdrop].
  - exists [], r, file. repeat split; [constructor|congruence].
  - apply not_false_is_true in Hdrop.
    destruct (filter _ (clean_row number_of_text <$> file)) as [|first rest].
    + by constructor.
    + destruct IH as (pre & r' & post & -> & Hpre & Hr' & ->).
      exists (r :: pre), r', post. repeat split; [by constructor|exact Hr'].
Qed.








End SnapshotFacts.

(** X11. [load_daily_data] fails exactly when the series filter drops
    every row of the file (an empty file included); the minimum delivery
    plays no part in that.  When it returns, the date is that of the first
    row the series filter keeps, which need not be the first row of the
    file. *)
Theorem load_daily_data_date (number_of_text : string → option float64)
    (file : list SnapshotRow) (min_delivery : float64) :
  (load_daily_data number_of_text file min_delivery = None ↔
     Forall (λ r, excluded (clean_row number_of_text r)) file) ∧
  (∀ (grouped : gmap string (list (string * float64))) (date : string),
     load_daily_data number_of_text file min_delivery = Some (grouped, date) →
     ∃ (pre : list SnapshotRow) (r : SnapshotRow) (post : list SnapshotRow),
       file = pre ++ r :: post ∧
       Forall (λ r', excluded (clean_row number_of_text r')) pre ∧
       ¬ excluded (clean_row number_of_text r) ∧
       date = DATE1 r).
Proof.
  pose proof (series_filter_head number_of_text file) as Hhead.
  unfold load_daily_data. cbv zeta.
  destruct (filter _ (clean_row number_of_text <$> file)) as [|first rest].
  - split; [done|]. intros grouped date Hsome. done.
  - destruct Hhead as (pre & r & post & -> & Hpre & Hr & ->). split.
    + split; [done|]. intros Hall.
      apply Forall_app in Hall as [_ Hall]. apply Forall_cons in Hall as [Hex _]. done.
    + intros grouped date [= _ <-]. exists pre, r, post. done.
Qed.

Example load_daily_data_date_example :
  ∃ grouped : gmap string (list (string * float64)),
    load_daily_data decimal_of_text
      [ mkSnapshotRow "GS" "GILT" "99.0" "31-Oct-2025";
        mkSnapshotRow "EQ" "ALPHA" "50.0" "03-Nov-2025" ] (of_Z 90)
    = Some (grouped, "03-Nov-2025"%string) ∧ grouped = ∅.
Proof. eexists. split; [reflexivity|]. vm_compute. reflexivity. Qed.





(** ** The series pattern matches the exclusion set and nothing else *)

Section Pattern.

Implicit Types (r : regex) (s : string) (c : ascii).

Lemma nullable_max_word r : nullable r = true → ∃ n : nat, max_word r = Some n.
Proof.
  induction r as [| |c'|lo hi|r1 IH1 r2 IH2|r1 IH1 r2 IH2]; cbn; try done.
  - eauto.
  - intros Hn. apply orb_true_iff in Hn as [Hn|Hn].
    + destruct (IH1 Hn) as [n1 ->]. destruct (max_word r2); eauto.
    + destruct (IH2 Hn) as [n2 ->]. destruct (max_word r1); eauto.
  - intros Hn. apply andb_true_iff in Hn as [Hn1 Hn2].
    destruct (IH1 Hn1) as [n1 ->], (IH2 Hn2) as [n2 ->]. eauto.
Qed.

(** Taking a character off the front shortens the longest word. *)
Lemma deriv_max_word c r :
  ∀ m : nat, max_word (deriv c r) = Some m →
             ∃ n : nat, max_word r = Some n ∧ (m + 1 ≤ n)%nat.
Proof.
  induction r as [| |c'|lo hi|r1 IH1 r2 IH2|r1 IH1 r2 IH2]; intros m; cbn; try done.
  - destruct (Ascii.eqb c c'); cbn; [|done]. intros [= <-]. eauto with lia.
  - destruct (in_range lo hi c); cbn; [|done]. intros [= <-]. eauto with lia.
  - destruct (max_word (deriv c r1)) as [m1|], (max_word (deriv c r2)) as [m2|];
      intros Hm; simplify_eq.
    + destruct (IH1 _ eq_refl) as (n1 & -> & ?), (IH2 _ eq_refl) as (n2 & -> & ?).
      eexists. split; [reflexivity|lia].
    + destruct (IH1 _ eq_refl) as (n1 & -> & ?).
      destruct (max_word r2); eexists; (split; [reflexivity|lia]).
    + destruct (IH2 _ eq_refl) as (n2 & -> & ?).
      destruct (max_word r1); eexists; (split; [reflexivity|lia]).
  - destruct (nullable r1) eqn:Hnull; cbn.
    + destruct (nullable_max_word r1 Hnull) as [n1 Hn1].
      destruct (max_word (deriv c r1)) as [m1|], (max_word (deriv c r2)) as [m2|];
        destruct (max_word r2) as [n2|] eqn:Hn2; intros Hm; simplify_eq;
        try (destruct (IH1 _ eq_refl) as (n1' & Hn1' & ?));
        try (destruct (IH2 _ eq_refl) as (n2' & Hn2' & ?));
        simplify_eq; rewrite ?Hn1;
        eexists; (split; [reflexivity|lia]).
    + destruct (max_word (deriv c r1)) as [m1|]; [|done].
      destruct (max_word r2) as [n2|]; [|done]. intros [= <-].
      destruct (IH1 _ eq_refl) as (n1 & -> & ?).
      eexists. split; [reflexivity|lia].
Qed.

Lemma fullmatch_length s :
  ∀ r, fullmatch r s = true →
       ∃ n : nat, max_word r = Some n ∧ (String.length s ≤ n)%nat.
Proof.
  induction s as [|c s IH]; intros r Hm; cbn in Hm.
  - destruct (nullable_max_word r Hm) as [n Hn]. exists n. split; [exact Hn|cbn; lia].
  - destruct (IH _ Hm) as (m & Hd & Hlen).
    destruct (deriv_max_word c r m Hd) as (n & Hn & Hmn).
    exists n. split; [exact Hn|cbn; lia].
Qed.

Lemma all_ascii_elem c : In c all_ascii.
Proof.
  apply list_elem_of_In. unfold all_ascii. apply list_elem_of_fmap.
  exists (nat_of_ascii c). split; [symmetry; apply ascii_nat_embedding|].
  apply elem_of_seq. pose proof (nat_ascii_bounded c). lia.
Qed.

Lemma one_character_codes c :
  fullmatch unwanted_series (String c EmptyString)
  = in_exclusion_set (String c EmptyString).
Proof.
  assert (Hall : forallb (λ a, Bool.eqb (fullmatch unwanted_series (String a EmptyString))
                                 (in_exclusion_set (String a EmptyString)))
                   all_ascii = true) by (vm_compute; reflexivity).
  rewrite forallb_forall in Hall. apply Bool.eqb_prop, Hall, all_ascii_elem.
Qed.

Lemma two_character_codes (a b : ascii) :
  fullmatch unwanted_series (String a (String b EmptyString))
  = in_exclusion_set (String a (String b EmptyString)).
Proof.
  assert (Hall : forallb (λ a, forallb (λ b,
                   Bool.eqb (fullmatch unwanted_series (String a (String b EmptyString)))
                            (in_exclusion_set (String a (String b EmptyString))))
                   all_ascii) all_ascii = true) by (vm_compute; reflexivity).
  rewrite forallb_forall in Hall. specialize (Hall a (all_ascii_elem a)).
  rewrite forallb_forall in Hall. apply Bool.eqb_prop, Hall, all_ascii_elem.
Qed.

Lemma exclusion_set_lengths s : s ∈ exclusion_set → String.length s = 2%nat.
Proof.
  intros Hin.
  assert (Hall : forallb (λ s, Nat.eqb (String.length s) 2) exclusion_set = true)
    by (vm_compute; reflexivity).
  rewrite forallb_forall in Hall. apply Nat.eqb_eq, Hall. by apply list_elem_of_In.
Qed.

Lemma fullmatch_short s :
  (String.length s ≤ 2)%nat → fullmatch unwanted_series s = in_exclusion_set s.
Proof.
  destruct s as [|a [|b [|c s]]]; intros Hlen.
  - vm_compute. reflexivity.
  - apply one_character_codes.
  - apply two_character_codes.
  - cbn in Hlen. lia.
Qed.

(** The whole text is matched exactly when it is one of the codes. *)
Lemma fullmatch_exclusion_set s :
  fullmatch unwanted_series s = true ↔ s ∈ exclusion_set.
Proof.
  split.
  - intros Hm. destruct (fullmatch_length s _ Hm) as (n & Hn & Hlen).
    vm_compute in Hn. injection Hn as <-.
    rewrite (fullmatch_short s Hlen) in Hm. by apply bool_decide_eq_true in Hm.
  - intros Hin. rewrite fullmatch_short.
    + by apply bool_decide_eq_true.
    + rewrite (exclusion_set_lengths s Hin). lia.
Qed.

Lemma append_nil_l s : (EmptyString ++ s)%string = s.
Proof. reflexivity. Qed.

Lemma append_cons c s s' : (String c s ++ s')%string = String c (s ++ s')%string.
Proof. reflexivity. Qed.

Lemma chop_newline_Some s :
  ∀ s', chop_newline s = Some s' ↔ s = (s' ++ String newline EmptyString)%string.
Proof.
  induction s as [|c t IH]; intros s'.
  - split; [done|]. destruct s'; [rewrite append_nil_l|rewrite append_cons]; done.
  - destruct t as [|c' t'].
    + cbn [chop_newline]. destruct s' as [|d u].
      * rewrite append_nil_l. destruct (Ascii.eqb c newline) eqn:Hc.
        -- apply Ascii.eqb_eq in Hc as ->. done.
        -- split; [done|]. intros [= ->]. by rewrite Ascii.eqb_refl in Hc.
      * rewrite append_cons. split.
        -- destruct (Ascii.eqb c newline); done.
        -- intros [= -> Hu]. destruct u; [rewrite append_nil_l in Hu|
                                          rewrite append_cons in Hu]; done.
    + change (chop_newline (String c (String c' t')))
        with (String c <$> chop_newline (String c' t')).
      destruct s' as [|d u].
      * rewrite append_nil_l. split.
        -- destruct (chop_newline (String c' t')); done.
        -- intros Heq. simplify_eq.
      * rewrite append_cons. specialize (IH u). split.
        -- intros Hc. destruct (chop_newline (String c' t')) as [u'|]; [|done].
           cbn in Hc. simplify_eq. f_equal. by apply IH.
        -- intros [= -> Hu]. apply IH in Hu. by rewrite Hu.
Qed.

End Pattern.

(** X14. The series filter is an exact match: a series code is dropped
    exactly when it is one of the 81 codes of the exclusion set, or such a
    code followed by one newline (which [$] lets pass).  A code that only
    contains an excluded code, or differs in case, is kept. *)
Theorem unwanted_series_exact (series : string) :
  str_match_anchored unwanted_series series = true ↔
  series ∈ exclusion_set ∨
  ∃ code : string,
    code ∈ exclusion_set ∧ series = (code ++ String newline EmptyString)%string.
Proof.
  unfold str_match_anchored. rewrite orb_true_iff, fullmatch_exclusion_set. split.
  - intros [Hin|Hchop]; [by left|right].
    destruct (chop_newline series) as [code|] eqn:Hc; [|done].
    exists code. split; [by apply fullmatch_exclusion_set|by apply chop_newline_Some].
  - intros [Hin|(code & Hin & ->)]; [by left|right].
    rewrite (proj2 (chop_newline_Some _ code) eq_refl).
    by apply fullmatch_exclusion_set.
Qed.

Example unwanted_series_examples :
  str_match_anchored unwanted_series "GS" = true ∧
  str_match_anchored unwanted_series "W7" = true ∧
  str_match_anchored unwanted_series "EQ" = false ∧
  str_match_anchored unwanted_series "GSX" = false ∧
  str_match_anchored unwanted_series "gs" = false ∧
  str_match_anchored unwanted_series "W" = false.
Proof. vm_compute. repeat split. Qed.

(** ** Data Normalizer: which error, and what a successful load holds *)

Section NormalizerFacts.

Context {X : Type}.
Variable strptime : string → option Z.
Variable float_of_text : string → option float64.

Implicit Types (file : list (RawRow X)) (cells : list string).

Lemma to_datetime_first_error (pre : list string) (c : string) (post : list string) :
  Forall (λ c', is_Some (strptime (strip c'))) pre →
  strptime (strip c) = None →
  to_datetime strptime (pre ++ c :: post) = inl (ValueError_date c).
Proof.
  intros Hpre Hc. induction Hpre as [|c' pre [d Hd] _ IH]; cbn.
  - by rewrite Hc.
  - by rewrite Hd, IH.
Qed.

Lemma astype_float_first_error (pre : list string) (c : string) (post : list string) :
  Forall (λ c', is_Some (float_of_text (remove_commas (strip c')))) pre →
  float_of_text (remove_commas (strip c)) = None →
  astype_float float_of_text (pre ++ c :: post) = inl (ValueError_float c).
Proof.
  intros Hpre Hc. induction Hpre as [|c' pre [x Hx] _ IH]; cbn.
  - by rewrite Hc.
  - by rewrite Hx, IH.
Qed.

Lemma to_datetime_inr cells :
  (∃ dates, to_datetime strptime cells = inr dates) ↔
  Forall (λ c, is_Some (strptime (strip c))) cells.
Proof.
  induction cells as [|c cells IH]; cbn.
  - split; [constructor|eauto].
  - destruct (strptime (strip c)) as [d|] eqn:Hd.
    + destruct (to_datetime strptime cells) as [e|ds]; split.
      * intros [dates ?]. done.
      * intros Hall. apply Forall_cons in Hall as [_ Hall].
        apply IH in Hall as [? ?]. done.
      * intros _. constructor; [by rewrite Hd|]. apply IH. eauto.
      * eauto.
    + split; [by intros [? ?]|]. intros Hall.
      apply Forall_cons in Hall as [[? Hc] _]. congruence.
Qed.

Lemma astype_float_inr cells :
  (∃ xs, astype_float float_of_text cells = inr xs) ↔
  Forall (λ c, is_Some (float_of_text (remove_commas (strip c)))) cells.
Proof.
  induction cells as [|c cells IH]; cbn.
  - split; [constructor|eauto].
  - destruct (float_of_text (remove_commas (strip c))) as [x|] eqn:Hx.
    + destruct (astype_float float_of_text cells) as [e|xs]; split.
      * intros [ys ?]. done.
      * intros Hall. apply Forall_cons in Hall as [_ Hall].
        apply IH in Hall as [? ?]. done.
      * intros _. constructor; [by rewrite Hx|]. apply IH. eauto.
      * eauto.
    + split; [by intros [? ?]|]. intros Hall.
      apply Forall_cons in Hall as [[? Hc] _]. congruence.
Qed.

Lemma to_datetime_Forall2 cells (dates : list Z) :
  to_datetime strptime cells = inr dates →
  Forall2 (λ c d, strptime (strip c) = Some d) cells dates.
Proof.
  revert dates. induction cells as [|c cells IH]; intros dates; cbn.
  - intros [= <-]. constructor.
  - destruct (strptime (strip c)) as [d|] eqn:Hd; [|done].
    destruct (to_datetime strptime cells) as [e|ds]; [done|].
    intros [= <-]. constructor; [exact Hd|by apply IH].
Qed.

Lemma astype_float_Forall2 cells (xs : list float64) :
  astype_float float_of_text cells = inr xs →
  Forall2 (λ c x, float_of_text (remove_commas (strip c)) = Some x) cells xs.
Proof.
  revert xs. induction cells as [|c cells IH]; intros xs; cbn.
  - intros [= <-]. constructor.
  - destruct (float_of_text (remove_commas (strip c))) as [x|] eqn:Hx; [|done].
    destruct (astype_float float_of_text cells) as [e|ys]; [done|].
    intros [= <-]. constructor; [exact Hx|by apply IH].
Qed.

End NormalizerFacts.

(** X15. The loader succeeds exactly when every date cell and every
    delivery cell of the file can be read.  Otherwise it raises for the
    first date cell that cannot be read, whatever the delivery cells are,
    and, when all dates can be read, for the first delivery cell that
    cannot. *)
Theorem load_historical_data_errors (X : Type)
    (strptime : string → option Z) (float_of_text : string → option float64)
    (file : list (RawRow X)) :
  ((∃ rows, load_historical_data strptime float_of_text file = inr rows) ↔
     Forall (λ r, is_Some (strptime (strip (raw_Date r)))) file ∧
     Forall (λ r, is_Some (float_of_text (remove_commas (strip (raw_Dly r))))) file) ∧
  (∀ (pre : list (RawRow X)) (r : RawRow X) (post : list (RawRow X)),
     file = pre ++ r :: post →
     Forall (λ r', is_Some (strptime (strip (raw_Date r')))) pre →
     strptime (strip (raw_Date r)) = None →
     load_historical_data strptime float_of_text file = inl (ValueError_date (raw_Date r))) ∧
  (∀ (pre : list (RawRow X)) (r : RawRow X) (post : list (RawRow X)),
     file = pre ++ r :: post →
     Forall (λ r', is_Some (strptime (strip (raw_Date r')))) file →
     Forall (λ r', is_Some (float_of_text (remove_commas (strip (raw_Dly r'))))) pre →
     float_of_text (remove_commas (strip (raw_Dly r))) = None →
     load_historical_data strptime float_of_text file = inl (ValueError_float (raw_Dly r))).
Proof.
  unfold load_historical_data. split; [|split].
  - pose proof (to_datetime_inr strptime (raw_Date <$> file)) as Hd.
    pose proof (astype_float_inr float_of_text (raw_Dly <$> file)) as Hx.
    rewrite !Forall_fmap in Hd, Hx.
    destruct (to_datetime strptime (raw_Date <$> file)) as [e|dates].
    + split; [by intros [? ?]|]. intros [Hall _]. apply Hd in Hall as [? ?]. done.
    + destruct (astype_float float_of_text (raw_Dly <$> file)) as [e|dly].
      * split; [by intros [? ?]|]. intros [_ Hall]. apply Hx in Hall as [? ?]. done.
      * split; [|eauto]. intros _. split; [apply Hd|apply Hx]; eauto.
  - intros pre r post -> Hpre Hr.
    rewrite fmap_app, fmap_cons.
    rewrite (to_datetime_first_error strptime); [done| |exact Hr].
    by rewrite Forall_fmap.
  - intros pre r post -> Hdates Hpre Hr.
    assert (Hcells : Forall (λ c, is_Some (strptime (strip c)))
                            (raw_Date <$> pre ++ r :: post))
      by by rewrite Forall_fmap.
    apply to_datetime_inr in Hcells as [dates ->].
    rewrite fmap_app, fmap_cons.
    rewrite (astype_float_first_error float_of_text); [done| |exact Hr].
    by rewrite Forall_fmap.
Qed.

Example load_historical_data_error_order :
  load_historical_data date_of_text decimal_of_text
    [ mkRawRow "ACME" "15-Jan-2024" "n/a" tt;
      mkRawRow "ACME" "16/01/2024" "92.5" tt ]
  = inl (ValueError_date "16/01/2024").
Proof. vm_compute. reflexivity. Qed.

(** X16. A successful load is the file parsed row by row and rearranged:
    each row keeps its other cells, its symbol is stripped, its date and
    delivery percentage are the values read from its own cells. *)
Theorem load_historical_data_rows (X : Type)
    (strptime : string → option Z) (float_of_text : string → option float64)
    (file : list (RawRow X)) (rows : list (HistRow X)) :
  load_historical_data strptime float_of_text file = inr rows →
  ∃ parsed : list (HistRow X),
    rows ≡ₚ parsed ∧
    Forall2 (λ r h,
               strptime (strip (raw_Date r)) = Some (hist_Date h) ∧
               float_of_text (remove_commas (strip (raw_Dly r))) = Some (hist_Dly h) ∧
               hist_Symbol h = strip (raw_Symbol r) ∧
               hist_rest h = raw_rest r)
            file parsed.
Proof.
  unfold load_historical_data.
  destruct (to_datetime strptime (raw_Date <$> file)) as [e|dates] eqn:Hd; [done|].
  destruct (astype_float float_of_text (raw_Dly <$> file)) as [e|dly] eqn:Hx; [done|].
  intros [= <-]. eexists. split; [apply sort_hist_perm|].
  apply to_datetime_Forall2 in Hd. apply astype_float_Forall2 in Hx.
  apply Forall2_fmap_l in Hd, Hx.
  revert dly Hx. induction Hd as [|r d file dates Hr _ IH]; intros dly Hx.
  - apply Forall2_nil_inv_l in Hx as ->. constructor.
  - apply Forall2_cons_inv_l in Hx as (x & dly' & Hrx & Hx & ->).
    cbn. constructor; [done|]. by apply IH.
Qed.

Lemma load_historical_data_rows_witness :
  ∃ parsed : list (HistRow unit),
    [ mkHistRow "ACME" 19737 (Fin (185 # 2)) tt;
      mkHistRow "ACME" 19738 (Fin (2469 # 2)) tt ] ≡ₚ parsed ∧
    length parsed = 2%nat.
Proof.
  destruct (load_historical_data_rows unit date_of_text decimal_of_text
              [ mkRawRow " ACME " "16-Jan-2024" " 1,234.50 " tt;
                mkRawRow "ACME" " 15-Jan-2024" "92.5" tt ]
              [ mkHistRow "ACME" 19737 (Fin (185 # 2)) tt;
                mkHistRow "ACME" 19738 (Fin (2469 # 2)) tt ]
              ltac:(vm_compute; reflexivity)) as (parsed & Hperm & Hall).
  exists parsed. split; [exact Hperm|].
  by rewrite <- (Permutation_length Hperm).
Defined.

(** ** [calculate_sector_performance] *)

Section Sector.

Lemma count_above (xs : list float64) (threshold : float64) :
  length (filter (λ b, b = true) (col_gt xs threshold))
  = length (filter (λ x, gt x threshold = true) xs).
Proof.
  unfold col_gt. induction xs as [|x xs IH]; [done|].
  rewrite fmap_cons, !filter_cons.
  destruct (gt x threshold);
    [rewrite !decide_True by done|rewrite !decide_False by done];
    cbn [length]; by rewrite IH.
Qed.

End Sector.

(** X17. With a symbol column and a sector table, the sector performance
    of a frame without rows is an [IndexError], not [None].  Otherwise the
    sector is the one the table gives for the symbol of the first row,
    ["Unknown"] when the table has no entry for it; the average is the
    mean delivery percentage; and the number of high-delivery days is the
    number of days above 90, the count [historical_analysis] makes for a
    threshold of 90, whatever threshold the user works with. *)
Theorem calculate_sector_performance_result (symbols : list string)
    (dly : list float64) (info : gmap string string) :
  (symbols = [] →
     calculate_sector_performance (Some symbols) dly (Some info)
     = inl single_positional_indexer_out_of_bounds) ∧
  (∀ (symbol : string) (rest : list string),
     symbols = symbol :: rest →
     ∃ p : SectorPerformance,
       calculate_sector_performance (Some symbols) dly (Some info) = inr (Some p) ∧
       (∀ name : string, info !! symbol = Some name → sector p = name) ∧
       (info !! symbol = None → sector p = "Unknown"%string) ∧
       avg_delivery p = mean dly ∧
       (sector_high_delivery_days p ≤ length dly)%nat ∧
       ∀ df : DataFrame,
         Dly_Qt_to_Traded_Qty df = dly →
         sector_high_delivery_days p = high_delivery_days df (of_Z 90)).
Proof.
  split; [by intros ->|]. intros symbol rest ->. cbn.
  eexists. split; [reflexivity|]. cbn. repeat split.
  - by intros name ->.
  - by intros ->.
  - rewrite count_above. apply length_filter.
  - intros df <-. unfold high_delivery_days.
    by rewrite count_above, loc_mask_self.
Qed.

(** ** [show_summary_dashboard]: the average volume on signal days *)

Section Dashboard.

Implicit Types (rows : list Row) (row r : Row) (threshold : float64).

Lemma filter_ext_elem {A : Type} (P Q : A → Prop)
    `{!∀ x, Decision (P x), !∀ x, Decision (Q x)} (l : list A) :
  (∀ x, x ∈ l → P x ↔ Q x) → filter P l = filter Q l.
Proof.
  induction l as [|x l IH]; intros Hext; [done|].
  rewrite !filter_cons.
  rewrite IH by (intros y Hy; apply Hext; by apply list_elem_of_further).
  pose proof (Hext x (list_elem_of_here _ _)) as Hx.
  destruct (decide (P x)), (decide (Q x)); tauto || done.
Qed.

(** Selecting cells of the volume column by a condition on the dates is
    selecting the rows by that condition. *)
Lemma loc_mask_rows_volume (h : Z → bool) (ds : list Z) :
  ∀ (xs vms : list float64) (vol : nat → option (float64 * float64)),
    length xs = length ds → length vms = length ds →
    (∀ (i : nat) (a : float64), vms !! i = Some a → fst <$> vol i = Some a) →
    loc_mask (h <$> ds) vms
    = omap (λ r, fst <$> row_Volume r)
           (filter (λ r, h (row_Date r) = true)
                   (imap (λ i '(d, x), mkRow d x (vol i)) (zip ds xs))).
Proof.
  induction ds as [|d ds IH]; intros xs vms vol Hxs Hvms Hvol.
  - by destruct vms.
  - destruct xs as [|x xs]; [done|]. destruct vms as [|a vms]; [done|].
    rewrite fmap_cons, loc_mask_cons. cbn [zip zip_with imap].
    rewrite filter_cons. cbn [row_Date].
    rewrite (IH xs vms (vol ∘ S)); [|cbn in Hxs; lia|cbn in Hvms; lia|].
    + destruct (h d).
      * rewrite decide_True by done. cbn [omap list_omap row_Volume].
        by rewrite (Hvol 0%nat a eq_refl).
      * by rewrite decide_False.
    + intros i a' Hi. apply (Hvol (S i)). exact Hi.
Qed.

Lemma signals_volume_cells rows threshold (rows' : list Row) :
  omap (λ s, fst <$> signal_Volume s) (omap (signal_for rows threshold) rows')
  = omap (λ r, fst <$> row_Volume r)
         (filter (λ r, is_Some (signal_for rows threshold r)) rows').
Proof.
  induction rows' as [|r rows' IH]; [done|].
  cbn [omap list_omap]. rewrite filter_cons.
  destruct (signal_for rows threshold r) as [s|] eqn:Hs.
  - rewrite decide_True by eauto. cbn [omap list_omap]. rewrite IH.
    apply signal_for_Some in Hs as (_ & _ & ->). done.
  - rewrite decide_False by (by intros [? ?]). exact IH.
Qed.

Lemma strictly_ascending_ascending (dates : list Z) :
  StronglySorted Z.lt dates → date_ascending dates.
Proof.
  unfold date_ascending. induction 1 as [|d dates _ IH Hall]; constructor; [done|].
  eapply Forall_impl; [exact Hall|]. cbn. lia.
Qed.

Lemma strictly_ascending_take (n : nat) (dates : list Z) :
  StronglySorted Z.lt dates → StronglySorted Z.lt (take n dates).
Proof.
  intros Hs. revert n.
  induction Hs as [|d dates Hs IH Hall]; intros [|n]; cbn; try constructor.
  - apply IH.
  - apply Forall_take, Hall.
Qed.

(** With strictly ascending dates a date names one row. *)
Lemma rows_same_date rows (r r' : Row) :
  StronglySorted Z.lt (row_Date <$> rows) →
  r ∈ rows → r' ∈ rows → row_Date r = row_Date r' → r = r'.
Proof.
  intros Hs Hr Hr' Hdate.
  apply list_elem_of_lookup_1 in Hr as [i Hi], Hr' as [j Hj].
  assert (Hrel : ∀ (a b : nat) (x y : Row),
             (a < b)%nat → rows !! a = Some x → rows !! b = Some y →
             row_Date x < row_Date y).
  { intros a b x y Hab Ha Hb.
    apply (StronglySorted_lookup_rel Z.lt (row_Date <$> rows) a b); [done..| |].
    - by rewrite list_lookup_fmap, Ha.
    - by rewrite list_lookup_fmap, Hb. }
  destruct (Nat.lt_trichotomy i j) as [Hlt|[->|Hgt]].
  - pose proof (Hrel i j r r' Hlt Hi Hj). lia.
  - congruence.
  - pose proof (Hrel j i r' r Hgt Hj Hi). lia.
Qed.

Lemma signal_date_rows rows threshold (r : Row) :
  StronglySorted Z.lt (row_Date <$> rows) → r ∈ rows →
  row_Date r ∈ signal_Date <$> omap (signal_for rows threshold) rows ↔
  is_Some (signal_for rows threshold r).
Proof.
  intros Hs Hr. split.
  - intros Hin. apply list_elem_of_fmap in Hin as (s & Hdate & Hin).
    apply list_elem_of_omap in Hin as (r' & Hr' & Hsig).
    assert (Hsame : r = r').
    { apply (rows_same_date rows); [done..|].
      apply signal_for_Some in Hsig as (_ & _ & ->). exact Hdate. }
    subst r'. eauto.
  - intros [s Hsig]. apply list_elem_of_fmap. exists s. split.
    + by apply signal_for_Some in Hsig as (_ & _ & ->).
    + apply list_elem_of_omap. eauto.
Qed.

End Dashboard.

(** X18. When no two rows of the series share a date (dates strictly
    ascending), the "average volume on signal days" of the dashboard is
    the mean of the volume multiples that the signals themselves carry:
    the rows selected by date are the rows that gave the signals. *)
Theorem avg_volume_on_signal_days_unique_dates (df : DataFrame) (threshold : float64)
    (v : VolumeColumns) :
  StronglySorted Z.lt (Date df) →
  length (Dly_Qt_to_Traded_Qty df) = length (Date df) →
  volume_columns df = Some v →
  length (Volume_Multiple v) = length (Date df) →
  analyze_delivery_signals df threshold ≠ [] →
  avg_volume_on_signal_days df (analyze_delivery_signals df threshold)
  = Some (mean (omap (λ s, fst <$> signal_Volume s)
                     (analyze_delivery_signals df threshold))).
Proof.
  intros Hstrict Hdly Hvol Hvm Hne.
  assert (Hrows : StronglySorted Z.lt (row_Date <$> iterrows df)).
  { rewrite iterrows_dates. by apply strictly_ascending_take. }
  assert (Hsig : analyze_delivery_signals df threshold
                 = omap (signal_for (iterrows df) threshold) (iterrows df)).
  { unfold analyze_delivery_signals. cbv zeta.
    rewrite sort_values_ascending; [done|].
    by apply strictly_ascending_ascending. }
  unfold avg_volume_on_signal_days. rewrite Hvol. cbn [mbind option_bind].
  destruct (signal_Date <$> analyze_delivery_signals df threshold) as [|d0 ds0] eqn:Hdates.
  { apply fmap_nil_inv in Hdates. done. }
  rewrite <- Hdates. f_equal. f_equal.
  rewrite Hsig, signals_volume_cells. unfold isin.
  rewrite (loc_mask_rows_volume _ (Date df) (Dly_Qt_to_Traded_Qty df) (Volume_Multiple v)
             (λ i, v' ← volume_columns df;
                   Some (Volume_Multiple v' !!! i, Delivery_to_Traded v' !!! i)));
    [|done..|].
  - fold (iterrows df). f_equal. apply filter_ext_elem. intros r Hr.
    rewrite bool_decide_eq_true. by apply signal_date_rows.
  - intros i a Hi. rewrite Hvol. cbn. f_equal.
    by apply list_lookup_total_correct.
Qed.

Lemma avg_volume_on_signal_days_unique_dates_witness :
  let df := add_volume_analysis
              (base_frame [1; 2; 200; 201] (of_Z <$> [70; 95; 96; 60])
                 (Some [10; 30; 50; 30]) (Some [5; 10; 20; 10]) None) in
  StronglySorted Z.lt (Date df) ∧
  analyze_delivery_signals df (of_Z 90)
    = [mkSignal 2 (of_Z 95) (Fin (165 # 2)) (Some (Fin 1, Fin (100 # 3)));
       mkSignal 200 (of_Z 96) (Fin 96) (Some (Fin (5 # 3), Fin 40))] ∧
  avg_volume_on_signal_days df (analyze_delivery_signals df (of_Z 90)) = Some (Fin (4 # 3)).
Proof.
  cbv zeta.
  set (df := add_volume_analysis _).
  assert (Hs : StronglySorted Z.lt (Date df)) by (repeat constructor; lia).
  split; [exact Hs|]. split; [vm_compute; reflexivity|].
  rewrite (avg_volume_on_signal_days_unique_dates df (of_Z 90) _
             Hs ltac:(reflexivity) ltac:(reflexivity) ltac:(reflexivity)
             ltac:(vm_compute; discriminate)).
  vm_compute. reflexivity.
Defined.

(** ** [daily_analysis]: the display order *)

(** X19. The display sort of [daily_analysis] leaves a group that is
    already in descending order exactly as it is, rows with equal delivery
    percentage included; sorting a second time changes nothing. *)
Theorem sorted_stocks_fixed (pairs : list (string * float64)) :
  (descending pairs → sorted_stocks pairs = pairs) ∧
  (Forall (λ q, isna q.2 = false) pairs →
     sorted_stocks (sorted_stocks pairs) = sorted_stocks pairs).
Proof.
  assert (Hfix : ∀ l, descending l → sorted_stocks l = l).
  { unfold descending. induction l as [|x l IH]; intros Hs; [done|].
    apply StronglySorted_inv in Hs as [Hs Hall].
    change (sorted_stocks (x :: l)) with (insert_desc x (sorted_stocks l)).
    rewrite (IH Hs). destruct l as [|y l]; [done|].
    apply Forall_cons in Hall as [Hle _]. cbn.
    destruct (gt y.2 x.2) eqn:Hgt; [|done].
    apply gt_le_false in Hgt. congruence. }
  split; [apply Hfix|]. intros Hna. apply Hfix. by apply sorted_stocks_descending.
Qed.

Example sorted_stocks_ties :
  sorted_stocks [("A"%string, Fin 95); ("B"%string, Fin 97); ("C"%string, Fin 95);
                 ("D"%string, Fin 97)]
  = [("B"%string, Fin 97); ("D"%string, Fin 97); ("A"%string, Fin 95);
     ("C"%string, Fin 95)].
Proof. vm_compute. reflexivity. Qed.

(** ** Signals and streaks together *)

(** X20. On a series in date order, a row that gives a signal and whose
    previous row is dated at most 90 days earlier starts a streak: the
    previous row is not above the threshold, and the signal row has
    [High_Delivery] true and [Consecutive_Days] 1. *)
Theorem signal_starts_streak (df : DataFrame) (threshold : float64)
    (i : nat) (row prev : Row) :
  date_ascending (Date df) →
  iterrows df !! S i = Some row →
  iterrows df !! i = Some prev →
  is_Some (signal_for (iterrows df) threshold row) →
  row_Date row - 90 ≤ row_Date prev →
  ∃ p : PatternColumns,
    pattern_columns (detect_delivery_patterns df threshold) = Some p ∧
    High_Delivery p !! i = Some false ∧
    High_Delivery p !! S i = Some true ∧
    Consecutive_Days p !! S i = Some 1%nat.
Proof.
  intros Hasc Hrow Hprev [s Hsig] Hnear.
  apply signal_for_Some in Hsig as (Hhigh & Hcount & _).
  assert (Hsorted : date_ascending (row_Date <$> iterrows df)).
  { rewrite iterrows_dates. by apply date_ascending_take. }
  pose proof (sorted_rows_dates (iterrows df) i (S i) prev row Hsorted
                ltac:(lia) Hprev Hrow) as Hle.
  assert (Hlow : gt (row_Dly prev) threshold = false).
  { destruct (gt (row_Dly prev) threshold) eqn:Hgt; [|done]. exfalso.
    assert (Htwo : (2 ≤ window_high_count (iterrows df) threshold (row_Date row))%nat).
    { unfold window_high_count.
      apply (filter_length_two _ (iterrows df) i (S i) prev row); try done; [lia|..];
        (split; [unfold in_lookback; lia|done]). }
    lia. }
  destruct (iterrows_lookup df (S i) row Hrow) as (_ & Hx & _).
  destruct (iterrows_lookup df i prev Hprev) as (_ & Hy & _).
  eexists. split; [reflexivity|]. cbn [High_Delivery Consecutive_Days].
  assert (Hfi : col_gt (Dly_Qt_to_Traded_Qty df) threshold !! i = Some false).
  { unfold col_gt. by rewrite list_lookup_fmap, Hy, <- Hlow. }
  assert (HfS : col_gt (Dly_Qt_to_Traded_Qty df) threshold !! S i = Some true).
  { unfold col_gt. by rewrite list_lookup_fmap, Hx, <- Hhigh. }
  split; [exact Hfi|]. split; [exact HfS|].
  destruct (streaks_law (col_gt (Dly_Qt_to_Traded_Qty df) threshold)) as (Hlen & _ & Hstep).
  destruct (lookup_lt_is_Some_2 (streaks (col_gt (Dly_Qt_to_Traded_Qty df) threshold)) i)
    as [c Hc].
  { rewrite Hlen. by eapply lookup_lt_Some. }
  rewrite (Hstep i false true c Hfi HfS Hc). reflexivity.
Qed.

Lemma signal_starts_streak_witness :
  let df := base_frame [1; 2; 3; 4; 5] (of_Z <$> [70; 95; 96; 60; 97]) None None None in
  date_ascending (Date df) ∧
  is_Some (signal_for (iterrows df) (of_Z 90) (mkRow 2 (of_Z 95) None)) ∧
  ∃ p : PatternColumns,
    pattern_columns (detect_delivery_patterns df (of_Z 90)) = Some p ∧
    High_Delivery p !! 0%nat = Some false ∧
    High_Delivery p !! 1%nat = Some true ∧
    Consecutive_Days p !! 1%nat = Some 1%nat.
Proof.
  cbv zeta.
  assert (Hasc : date_ascending [1; 2; 3; 4; 5]) by (repeat constructor; lia).
  assert (Hsig : is_Some (signal_for
                            (iterrows (base_frame [1; 2; 3; 4; 5]
                               (of_Z <$> [70; 95; 96; 60; 97]) None None None))
                            (of_Z 90) (mkRow 2 (of_Z 95) None)))
    by (vm_compute; eauto).
  split; [exact Hasc|]. split; [exact Hsig|].
  exact (signal_starts_streak
           (base_frame [1; 2; 3; 4; 5] (of_Z <$> [70; 95; 96; 60; 97]) None None None)
           (of_Z 90) 0 (mkRow 2 (of_Z 95) None) (mkRow 1 (of_Z 70) None)
           Hasc eq_refl eq_refl Hsig ltac:(cbn; lia)).
Defined.
